(** * Symref static code checker: shallow embedding of [staticCodeChecker.ts]

    The checker ([StaticCodeChecker.analyzeSymbol] and
    [StaticCodeChecker.checkFile]) runs over a project of parsed source
    files supplied by the ts-morph front end.  The front end is data here:
    a project is the list returned by [getSourceFiles()], a source file
    carries its identifier nodes in [getDescendantsOfKind(Identifier)]
    order, and an identifier carries what the checker asks of it (text,
    position, ancestors, the declarations its binding resolves to).  The
    Node [path] module and the front end's file lookup are interfaces
    ([PathApi], [ProjectApi]), with instances on POSIX paths for the
    worked examples. *)

From Stdlib Require Import Ascii String.
From stdpp Require Import base strings list gmap pretty.

Open Scope string_scope.

(* [set_solver] clears hypotheses that may be absent. *)
#[local] Set Warnings "-clear-no-such-hyp".

(** ** JavaScript string helpers *)

Module JsString.

(** [s.startsWith(p)] *)
Definition startsWith (s p : string) : bool := String.prefix p s.

(** [s.endsWith(p)] *)
Definition endsWith (s p : string) : bool :=
  String.prefix (String.rev p) (String.rev s).

(** Template-literal rendering of a [string | undefined] value. *)
Definition render (s : option string) : string :=
  match s with
  | Some v => v
  | None => "undefined"
  end.

(** JavaScript truthiness of a [string | undefined] value. *)
Definition truthy (s : option string) : bool :=
  match s with
  | Some v => negb (String.eqb v "")
  | None => false
  end.

End JsString.

(** ** The Node [path] module, as an interface *)

Class PathApi := {
  cwd : string;                          (* process.cwd() *)
  dirname : string -> string;            (* path.dirname *)
  resolve : string -> string -> string;  (* path.resolve(from, to) *)
  join : string -> string -> string;     (* path.join(a, b) *)
  relative : string -> string -> string  (* path.relative(from, to) *)
}.

(** A POSIX reading of the interface, on slash-separated paths; [resolve]
    expects an absolute first argument, as [dirname] of a project file is. *)
Module Posix.

Definition slash : ascii := "/"%char.

(** Splits at every slash; the current segment is accumulated reversed. *)
Fixpoint splitAcc (cur : string) (s : string) : list string :=
  match s with
  | EmptyString => [String.rev cur]
  | String c rest =>
      if Ascii.eqb c slash then String.rev cur :: splitAcc "" rest
      else splitAcc (String c cur) rest
  end.

Definition segments (s : string) : list string := splitAcc "" s.

(** Normalisation of a segment list; [stack] is the reversed output.
    An absolute path cannot climb above the root, a relative one keeps
    its leading [..] segments. *)
Fixpoint normalize (absolute : bool) (stack : list string) (segs : list string)
  : list string :=
  match segs with
  | [] => rev stack
  | seg :: rest =>
      if String.eqb seg "" || String.eqb seg "." then normalize absolute stack rest
      else if String.eqb seg ".." then
        match stack with
        | top :: below =>
            if String.eqb top ".." then normalize absolute (seg :: stack) rest
            else normalize absolute below rest
        | [] =>
            if absolute then normalize absolute [] rest
            else normalize absolute [seg] rest
        end
      else normalize absolute (seg :: stack) rest
  end.

Fixpoint intercalate (segs : list string) : string :=
  match segs with
  | [] => ""
  | [seg] => seg
  | seg :: rest => seg +:+ "/" +:+ intercalate rest
  end.

Definition isAbsolute (p : string) : bool := JsString.startsWith p "/".

Definition absolutePath (segs : list string) : string :=
  "/" +:+ intercalate (normalize true [] segs).

Definition posixResolve (from to : string) : string :=
  if isAbsolute to then absolutePath (segments to)
  else absolutePath (segments from ++ segments to).

Definition posixJoin (a b : string) : string :=
  let joined := a +:+ "/" +:+ b in
  if isAbsolute joined then absolutePath (segments joined)
  else
    match normalize false [] (segments joined) with
    | [] => "."
    | segs => intercalate segs
    end.

Definition posixDirname (p : string) : string :=
  match rev (normalize (isAbsolute p) [] (segments p)) with
  | [] => if isAbsolute p then "/" else "."
  | _ :: parents =>
      if isAbsolute p then "/" +:+ intercalate (rev parents)
      else match parents with
           | [] => "."
           | _ => intercalate (rev parents)
           end
  end.

(** Drops the common leading segments of two normalised paths. *)
Fixpoint dropCommon (from to : list string) : list string * list string :=
  match from, to with
  | f :: from', t :: to' =>
      if String.eqb f t then dropCommon from' to' else (from, to)
  | _, _ => (from, to)
  end.

Definition posixRelative (from to : string) : string :=
  let '(up, down) := dropCommon (normalize true [] (segments from))
                                (normalize true [] (segments to)) in
  intercalate (map (fun _ => "..") up ++ down).

Definition api : PathApi := {|
  cwd := "/work";
  dirname := posixDirname;
  resolve := posixResolve;
  join := posixJoin;
  relative := posixRelative
|}.

End Posix.

(** ** The parsed project, as the ts-morph front end hands it over *)

(** The [SyntaxKind]s the checker tests for or meets on the way up from an
    identifier; the front end's other kinds are [OtherKind]. *)
Inductive SyntaxKind :=
  | ClassDeclaration
  | InterfaceDeclaration
  | FunctionDeclaration
  | MethodDeclaration
  | PropertyDeclaration
  | VariableDeclaration
  | MethodSignature
  | PropertySignature
  | NewExpression
  | PropertyAccessExpression
  | CallExpression
  | ImportSpecifier
  | ImportClause
  | NamedImports
  | ImportDeclaration
  | TypeReference
  | ExpressionWithTypeArguments
  | HeritageClause
  | OtherKind.

#[global] Instance SyntaxKind_eq_dec : EqDecision SyntaxKind.
Proof. solve_decision. Defined.

(** A node above an identifier: its kind, its [getName()] where it is a
    named declaration, and its [getModuleSpecifierValue()] where it is an
    import declaration. *)
Record Ancestor := {
  kind : SyntaxKind;
  getName : option string;
  getModuleSpecifierValue : string
}.

(** The node behind [DefinitionInfo.getDeclarationNode()]: the file it
    lives in, its [getPos()] and its kind. *)
Record DeclarationNode := {
  declFilePath : string;
  declPos : nat;
  declKind : SyntaxKind
}.

(** An identifier node.  [ancestors] lists the nodes above it, nearest
    first, so [getParent()] is its head; [line] and [column] are
    [getLineAndColumnAtPos(getStart())]; [getDefinitions] holds, for each
    [DefinitionInfo] of the binding, its declaration node if it has one. *)
Record IdentifierNode := {
  getText : string;
  getPos : nat;
  line : nat;
  column : nat;
  ancestors : list Ancestor;
  getDefinitions : list (option DeclarationNode)
}.

(** A class of a source file: name, method names, property names. *)
Record ClassNode := {
  className : option string;
  getMethods : list string;
  getProperties : list string
}.

(** A parsed source file. *)
Record SourceFile := {
  getFilePath : string;
  identifiers : list IdentifierNode;   (* getDescendantsOfKind(Identifier) *)
  getFunctions : list (option string); (* names of top-level functions *)
  getClasses : list ClassNode;
  getInterfaces : list string;
  getVariableDeclarations : list string
}.

(** [project.getSourceFiles()] *)
Definition Project := list SourceFile.

(** [project.getSourceFile(fileNameOrPath)], the lookup behind
    [getSourceFileOrThrow]: how the argument is matched against the files
    the front end holds is ts-morph's business, so it is an interface. *)
Class ProjectApi := {
  getSourceFile : Project -> string -> option SourceFile
}.

(** A reading of ts-morph's lookup on POSIX paths, for a front end that
    holds no file beyond those of [getSourceFiles()]: an argument with a
    slash in it is resolved against the working directory and looked up
    as a path; a bare file name is matched against the last segment of
    each file path, and the first file in project order wins. *)
Module TsMorph.

Definition hasSlash (p : string) : bool :=
  existsb (Ascii.eqb Posix.slash) (list_ascii_of_string p).

Definition baseName (p : string) : string :=
  List.last (Posix.segments p) "".

Definition lookup (project : Project) (fileNameOrPath : string)
  : option SourceFile :=
  if hasSlash fileNameOrPath then
    let filePath := Posix.posixResolve (cwd (PathApi := Posix.api)) fileNameOrPath in
    List.find (fun sf => String.eqb (getFilePath sf) filePath) project
  else
    List.find (fun sf => String.eqb (baseName (getFilePath sf)) fileNameOrPath)
              project.

Definition api : ProjectApi := {| getSourceFile := lookup |}.

End TsMorph.

(** Node identity ([===] on nodes): the file's place in the project and
    the identifier's place among the file's identifiers. *)
Record NodeId := { fileIndex : nat; nodeIndex : nat }.

#[global] Instance NodeId_eq_dec : EqDecision NodeId.
Proof. solve_decision. Defined.

(** An identifier together with its identity and its source file's path. *)
Record Occurrence := {
  nodeId : NodeId;
  sourcePath : string;   (* getSourceFile().getFilePath() *)
  node : IdentifierNode
}.

Definition isKind (a : Ancestor) (k : SyntaxKind) : bool :=
  bool_decide (kind a = k).

Definition getParent (n : IdentifierNode) : option Ancestor :=
  head (ancestors n).

(** [getFirstAncestorByKind] over a chain of ancestors, nearest first. *)
Definition firstByKind (k : SyntaxKind) (chain : list Ancestor) : option Ancestor :=
  List.find (fun a => isKind a k) chain.

Definition getFirstAncestorByKind (n : IdentifierNode) (k : SyntaxKind)
  : option Ancestor :=
  firstByKind k (ancestors n).

(** The identifiers of a file whose text is the symbol name, in order. *)
Definition identifiersNamed (symbolName : string) (fi : nat) (sf : SourceFile)
  : list Occurrence :=
  List.filter (fun o => String.eqb (getText (node o)) symbolName)
    (imap (fun ni n => {| nodeId := {| fileIndex := fi; nodeIndex := ni |};
                          sourcePath := getFilePath sf;
                          node := n |})
          (identifiers sf)).

(** ** Results and errors *)

(** The kinds a result or a dead-symbol entry can carry: the string
    literals ['function'], ['interface'], ['class'], ['variable'] of
    [ReferenceResult['type']] and the ['method'] and ['property'] that
    [checkFile] writes. *)
Inductive SymbolKind :=
  | KFunction | KInterface | KClass | KVariable | KMethod | KProperty.

#[global] Instance SymbolKind_eq_dec : EqDecision SymbolKind.
Proof. solve_decision. Defined.

Record Site := {
  filePath : string;
  siteLine : nat;
  siteColumn : nat;
  context : string
}.

#[global] Instance Site_eq_dec : EqDecision Site.
Proof. solve_decision. Defined.

Record ReferenceResult := {
  symbol : string;
  type : SymbolKind;
  definition : Site;
  references : list Site;
  isReferenced : bool
}.

Record DeadSymbol := {
  deadType : SymbolKind;
  deadName : string;
  deadContext : string
}.

Inductive Error :=
  | SymbolNotFound (symbolName : string)      (* thrown by analyzeSymbol *)
  | FileNotInWorkspace (filePath : string).   (* getSourceFileOrThrow *)

(** Computations that may throw. *)
Definition Result (A : Type) : Type := Error + A.

Definition ok {A} (a : A) : Result A := inr a.
Definition throw {A} (e : Error) : Result A := inl e.

Definition bind {A B} (r : Result A) (k : A -> Result B) : Result B :=
  match r with
  | inl e => inl e
  | inr a => k a
  end.

Notation "'let*' x ':=' r 'in' k" := (bind r (fun x => k))
  (at level 10, x name, r at level 100, k at level 200).

(** ** [StaticCodeChecker.analyzeSymbol] *)

(** The parent kinds that make an identifier a definition (lines 89-95). *)
Definition isDefinitionParent (parent : Ancestor) : bool :=
  isKind parent ClassDeclaration
  || isKind parent InterfaceDeclaration
  || isKind parent FunctionDeclaration
  || isKind parent MethodDeclaration
  || isKind parent PropertyDeclaration.

Definition acceptsAsDefinition (o : Occurrence) : bool :=
  match getParent (node o) with
  | Some parent => isDefinitionParent parent
  | None => false
  end.

Definition isDeclarationFile (path : string) : bool :=
  JsString.endsWith path ".d.ts".

(** The definition search (lines 79-106): files in project order, ambient
    files skipped, the first accepted identifier of the first file that
    has one. *)
Fixpoint findDefinitionFrom (symbolName : string) (fi : nat) (files : list SourceFile)
  : option Occurrence :=
  match files with
  | [] => None
  | sourceFile :: rest =>
      if isDeclarationFile (getFilePath sourceFile)
      then findDefinitionFrom symbolName (S fi) rest
      else
        match List.find acceptsAsDefinition (identifiersNamed symbolName fi sourceFile) with
        | Some definitionNode => Some definitionNode
        | None => findDefinitionFrom symbolName (S fi) rest
        end
  end.

Definition findDefinition (project : Project) (symbolName : string)
  : option Occurrence :=
  findDefinitionFrom symbolName 0 project.

(** The kind assignment inside the search loop (lines 98-101), from the
    initial ['function']. *)
Definition symbolTypeInLoop (symbolType : SymbolKind) (parent : Ancestor) : SymbolKind :=
  if isKind parent ClassDeclaration then KClass
  else if isKind parent InterfaceDeclaration then KInterface
  else if isKind parent FunctionDeclaration then KFunction
  else if isKind parent VariableDeclaration then KVariable
  else symbolType.

(** The second kind assignment (lines 116-122). *)
Definition symbolTypeAfter (symbolType : SymbolKind) (parent : option Ancestor)
  : SymbolKind :=
  match parent with
  | Some parent =>
      if isKind parent FunctionDeclaration then KFunction
      else if isKind parent InterfaceDeclaration then KInterface
      else if isKind parent ClassDeclaration then KClass
      else if isKind parent VariableDeclaration then KVariable
      else symbolType
  | None => symbolType
  end.

Definition symbolTypeOf (definitionNode : Occurrence) : SymbolKind :=
  let parent := getParent (node definitionNode) in
  let symbolType :=
    match parent with
    | Some p => symbolTypeInLoop KFunction p
    | None => KFunction
    end in
  symbolTypeAfter symbolType parent.

(** Binding resolution against the definition (lines 141-169). *)
Definition resolvesTo (definitionNode o : Occurrence) (defNode : DeclarationNode) : bool :=
  let isSameFile := String.eqb (declFilePath defNode) (sourcePath definitionNode) in
  let isSamePosition := Nat.eqb (declPos defNode) (getPos (node definitionNode)) in
  (isSameFile && isSamePosition)
  || match getParent (node o) with
     | Some nodeParent =>
         (isKind nodeParent NewExpression
          && bool_decide (declKind defNode = ClassDeclaration))
         || (isKind nodeParent PropertyAccessExpression
             && bool_decide (declKind defNode = MethodDeclaration))
     | None => false
     end.

Definition isReferenceToDefinition (definitionNode o : Occurrence) : bool :=
  existsb (fun def =>
             match def with
             | Some defNode => resolvesTo definitionNode o defNode
             | None => false
             end)
          (getDefinitions (node o)).

(** The definition's own node, and member accesses directly under a
    method declaration, are not counted (lines 181-196). *)
Definition isDefinitionItself (definitionNode o : Occurrence) : bool :=
  match ancestors (node o) with
  | [] => false
  | parent :: above =>
      (bool_decide (nodeId o = nodeId definitionNode)
       && (isKind parent ClassDeclaration
           || isKind parent InterfaceDeclaration
           || isKind parent FunctionDeclaration
           || isKind parent MethodDeclaration
           || isKind parent PropertyDeclaration
           || isKind parent MethodSignature))
      || (isKind parent PropertyAccessExpression
          && match head above with
             | Some grandParent => isKind grandParent MethodDeclaration
             | None => false
             end)
  end.

Section Checker.

Context {path : PathApi} {front : ProjectApi}.

(** The candidate files of a relative import (lines 205-213). *)
Definition possiblePaths (importerFile importedModule : string) : list string :=
  let importerDir := dirname importerFile in
  let resolvedPath := resolve importerDir importedModule in
  [ resolvedPath +:+ ".ts";
    resolvedPath +:+ ".tsx";
    join resolvedPath "index.ts";
    join resolvedPath "index.tsx" ].

(** The import filter (lines 199-224): [true] when the occurrence is
    dropped. *)
Definition isForeignImport (definitionNode o : Occurrence) : bool :=
  match ancestors (node o) with
  | [] => false
  | parent :: above =>
      if isKind parent ImportSpecifier then
        match firstByKind ImportDeclaration above with
        | Some importDecl =>
            let importedModule := getModuleSpecifierValue importDecl in
            if JsString.startsWith importedModule "." then
              let targetPath := sourcePath definitionNode in
              negb (existsb (fun p => String.eqb p targetPath)
                            (possiblePaths (sourcePath o) importedModule))
            else true
        | None => false
        end
      else false
  end.

(** The enclosing-context label (lines 227-245). *)
Definition contextOf (n : IdentifierNode) : string :=
  let containingFunction := getFirstAncestorByKind n FunctionDeclaration in
  let containingClass := getFirstAncestorByKind n ClassDeclaration in
  let containingInterface := getFirstAncestorByKind n InterfaceDeclaration in
  let containingMethod := getFirstAncestorByKind n MethodDeclaration in
  match containingClass with
  | Some c =>
      let context := "class " +:+ JsString.render (getName c) in
      match containingMethod with
      | Some m => context +:+ "." +:+ JsString.render (getName m)
      | None => context
      end
  | None =>
      match containingInterface with
      | Some i => "interface " +:+ JsString.render (getName i)
      | None =>
          match containingFunction with
          | Some f => "function " +:+ JsString.render (getName f)
          | None =>
              match containingMethod with
              | Some m => "method " +:+ JsString.render (getName m)
              | None => "global scope"
              end
          end
      end
  end.

(** The entry an occurrence is reported as (lines 226, 247-262). *)
Definition siteOf (o : Occurrence) : Site :=
  {| filePath := relative cwd (sourcePath o);
     siteLine := line (node o);
     siteColumn := column (node o);
     context := contextOf (node o) |}.

(** The de-duplication key (line 252). *)
Definition refKey (s : Site) : string :=
  filePath s +:+ ":" +:+ pretty (siteLine s) +:+ ":" +:+ pretty (siteColumn s)
  +:+ ":" +:+ context s.

(** The two accumulators of the reference loop. *)
Record RefState := {
  refs : list Site;        (* references *)
  refsSet : gset string
}.

Definition emptyRefState : RefState := {| refs := []; refsSet := ∅ |}.

(** One turn of the inner loop (lines 138-264); every [continue] returns
    the state as it was. *)
Definition visitNode (definitionNode : Occurrence) (st : RefState) (o : Occurrence)
  : RefState :=
  if negb (isReferenceToDefinition definitionNode o) then st
  else if isDeclarationFile (sourcePath o) then st
  else if isDefinitionItself definitionNode o then st
  else if isForeignImport definitionNode o then st
  else
    let site := siteOf o in
    let key := refKey site in
    if bool_decide (key ∈ refsSet st) then st
    else {| refs := refs st ++ [site]; refsSet := refsSet st ∪ {[key]} |}.

(** One turn of the outer loop (lines 127-265). *)
Definition visitFile (symbolName : string) (includeInternalReferences : bool)
    (definitionNode : Occurrence) (st : RefState) (entry : nat * SourceFile)
  : RefState :=
  let '(fi, sourceFile) := entry in
  let currentFile := getFilePath sourceFile in
  let definitionFile := sourcePath definitionNode in
  if String.eqb currentFile definitionFile && negb includeInternalReferences then st
  else foldl (visitNode definitionNode) st (identifiersNamed symbolName fi sourceFile).

Definition collectReferences (project : Project) (symbolName : string)
    (includeInternalReferences : bool) (definitionNode : Occurrence) : RefState :=
  foldl (visitFile symbolName includeInternalReferences definitionNode)
        emptyRefState (imap pair project).

(** [analyzeSymbol(symbolName, { includeInternalReferences })] *)
Definition analyzeSymbol (project : Project) (symbolName : string)
    (includeInternalReferences : bool) : Result ReferenceResult :=
  match findDefinition project symbolName with
  | None => throw (SymbolNotFound symbolName)
  | Some definitionNode =>
      let symbolType := symbolTypeOf definitionNode in
      let st := collectReferences project symbolName includeInternalReferences
                                  definitionNode in
      let defContext := "global scope" in
      ok {| symbol := symbolName;
            type := symbolType;
            definition :=
              {| filePath := relative cwd (sourcePath definitionNode);
                 siteLine := line (node definitionNode);
                 siteColumn := column (node definitionNode);
                 context := defContext |};
            references := refs st;
            isReferenced := bool_decide (0 < length (refs st)) |}
  end.

(** ** [StaticCodeChecker.checkFile] *)

(** [project.getSourceFileOrThrow(filePath)]: the front end's lookup, and
    an error where it finds nothing. *)
Definition getSourceFileOrThrow (project : Project) (filePath : string)
  : Result SourceFile :=
  match getSourceFile project filePath with
  | Some sourceFile => ok sourceFile
  | None => throw (FileNotInWorkspace filePath)
  end.

(** The two accumulators of the scan. *)
Record ScanState := {
  unreferencedSymbols : list DeadSymbol;
  checkedSymbols : gset string
}.

Definition emptyScanState : ScanState :=
  {| unreferencedSymbols := []; checkedSymbols := ∅ |}.

(** A loop whose body may throw. *)
Fixpoint forEach {A B} (body : A -> B -> Result A) (st : A) (items : list B)
  : Result A :=
  match items with
  | [] => ok st
  | item :: rest => let* st' := body st item in forEach body st' rest
  end.

(** The list [declarations] (lines 297-302): kind and [getName()] of the
    functions, classes, interfaces and variable declarations. *)
Definition declarations (sourceFile : SourceFile)
  : list (SyntaxKind * option string) :=
  map (fun n => (FunctionDeclaration, n)) (getFunctions sourceFile)
  ++ map (fun c => (ClassDeclaration, className c)) (getClasses sourceFile)
  ++ map (fun n => (InterfaceDeclaration, Some n)) (getInterfaces sourceFile)
  ++ map (fun n => (VariableDeclaration, Some n)) (getVariableDeclarations sourceFile).

(** The guarded body shared by the three loops: a truthy name not yet
    checked is recorded, analysed with the default options, and reported
    through [report] when the result has no reference. *)
Definition checkName (project : Project)
    (report : string -> ReferenceResult -> DeadSymbol)
    (st : ScanState) (name : option string) : Result ScanState :=
  match name with
  | Some name =>
      if JsString.truthy (Some name) && negb (bool_decide (name ∈ checkedSymbols st))
      then
        let checked := checkedSymbols st ∪ {[name]} in
        let* result := analyzeSymbol project name false in
        if negb (isReferenced result) then
          ok {| unreferencedSymbols := unreferencedSymbols st ++ [report name result];
                checkedSymbols := checked |}
        else
          ok {| unreferencedSymbols := unreferencedSymbols st;
                checkedSymbols := checked |}
      else ok st
  | None => ok st
  end.

(** The entry of a top-level declaration (lines 311-322). *)
Definition reportDeclaration (k : SyntaxKind) (name : string)
    (result : ReferenceResult) : DeadSymbol :=
  let type :=
    if bool_decide (k = InterfaceDeclaration) then KInterface
    else if bool_decide (k = ClassDeclaration) then KClass
    else type result in
  {| deadType := type; deadName := name; deadContext := "global scope" |}.

(** The entry of a class member (lines 338-342 and 354-358). *)
Definition reportMember (memberType : SymbolKind) (className : option string)
    (name : string) (_ : ReferenceResult) : DeadSymbol :=
  {| deadType := memberType;
     deadName := name;
     deadContext := "class " +:+ JsString.render className |}.

(** Lines 305-325. *)
Definition checkDeclaration (project : Project) (st : ScanState)
    (declaration : SyntaxKind * option string) : Result ScanState :=
  checkName project (reportDeclaration (fst declaration)) st (snd declaration).

(** Lines 332-345 and 348-361: one member of a class. *)
Definition checkMember (project : Project) (memberType : SymbolKind)
    (className : option string) (st : ScanState) (name : string)
  : Result ScanState :=
  checkName project (reportMember memberType className) st (Some name).

(** Lines 328-362: the methods, then the properties, of one class. *)
Definition checkClass (project : Project) (st : ScanState) (classDecl : ClassNode)
  : Result ScanState :=
  let className := className classDecl in
  let* st' := forEach (checkMember project KMethod className) st
                      (getMethods classDecl) in
  forEach (checkMember project KProperty className) st' (getProperties classDecl).

(** [checkFile(filePath)] *)
Definition checkFile (project : Project) (filePath : string)
  : Result (list DeadSymbol) :=
  let* sourceFile := getSourceFileOrThrow project filePath in
  let* st := forEach (checkDeclaration project) emptyScanState
                     (declarations sourceFile) in
  let* st' := forEach (checkClass project) st (getClasses sourceFile) in
  ok (unreferencedSymbols st').

End Checker.

(** ** Vocabulary for stating what the loops compute *)

(** Every identifier with the symbol's text, in file-then-occurrence order. *)
Definition occurrences (project : Project) (symbolName : string) : list Occurrence :=
  concat (imap (identifiersNamed symbolName) project).

(** The file test of the reference loop (line 131), per occurrence. *)
Definition isScanned (includeInternalReferences : bool) (definitionNode o : Occurrence)
  : bool :=
  negb (String.eqb (sourcePath o) (sourcePath definitionNode)
        && negb includeInternalReferences).

(** No colon in a string. *)
Fixpoint colonFree (s : string) : bool :=
  match s with
  | EmptyString => true
  | String c rest => negb (Ascii.eqb c ":"%char) && colonFree rest
  end.

(** An occurrence the definition search accepts: outside ambient files,
    with a declaration parent. *)
Definition isDefinitionCandidate (o : Occurrence) : bool :=
  negb (isDeclarationFile (sourcePath o)) && acceptsAsDefinition o.

Section Characterisation.

Context {path : PathApi}.

(** The [definition] field of a result (lines 268-280). *)
Definition definitionSite (definitionNode : Occurrence) : Site :=
  {| filePath := relative cwd (sourcePath definitionNode);
     siteLine := line (node definitionNode);
     siteColumn := column (node definitionNode);
     context := "global scope" |}.

(** The occurrence reaches the end of the loop body (lines 141-224). *)
Definition producesReference (definitionNode o : Occurrence) : bool :=
  isReferenceToDefinition definitionNode o
  && negb (isDeclarationFile (sourcePath o))
  && negb (isDefinitionItself definitionNode o)
  && negb (isForeignImport definitionNode o).

(** The reference-producing occurrences of one analysis, in order. *)
Definition referenceOccurrences (project : Project) (symbolName : string)
    (includeInternalReferences : bool) (definitionNode : Occurrence)
  : list Occurrence :=
  List.filter (fun o => isScanned includeInternalReferences definitionNode o
                        && producesReference definitionNode o)
              (occurrences project symbolName).

(** Keeps, of a list of sites, the first site of every key not in [seen]. *)
Fixpoint firstPerKey (seen : gset string) (sites : list Site) : list Site :=
  match sites with
  | [] => []
  | s :: rest =>
      if bool_decide (refKey s ∈ seen) then firstPerKey seen rest
      else s :: firstPerKey (seen ∪ {[refKey s]}) rest
  end.


(** What the scan visits, in order: each name with the entry it would be
    reported as. *)
Definition ScanItem : Type := option string * (string -> ReferenceResult -> DeadSymbol).

Definition memberItems (classDecl : ClassNode) : list ScanItem :=
  map (fun m => (Some m, reportMember KMethod (className classDecl)))
      (getMethods classDecl)
  ++ map (fun p => (Some p, reportMember KProperty (className classDecl)))
         (getProperties classDecl).

Definition scanOrder (sourceFile : SourceFile) : list ScanItem :=
  map (fun d => (snd d, reportDeclaration (fst d))) (declarations sourceFile)
  ++ concat (map memberItems (getClasses sourceFile)).

(** The first item of a scan that carries the given name. *)
Definition firstItemNamed (name : string) (items : list ScanItem) : option ScanItem :=
  List.find (fun item => bool_decide (fst item = Some name)) items.

(** The guarded loop body, on a scan item. *)
Definition checkItem (project : Project) (st : ScanState) (item : ScanItem)
  : Result ScanState :=
  checkName project (snd item) st (fst item).

(** The report of an item carries the name it is given. *)
Definition NamesItself (item : ScanItem) : Prop :=
  forall n r, deadName (snd item n r) = n.

(** What holds of the scan state after the items [visited]: the checked
    names are the truthy names visited, the entries have distinct names,
    and each entry is the report of the first visited item with its
    name, for an analysis that found no reference. *)
Definition ScanInv (project : Project) (visited : list ScanItem) (st : ScanState)
  : Prop :=
  (forall n, n ∈ checkedSymbols st
             <-> n <> "" /\ exists item, item ∈ visited /\ fst item = Some n)
  /\ NoDup (map deadName (unreferencedSymbols st))
  /\ (forall e, e ∈ unreferencedSymbols st ->
        deadName e ∈ checkedSymbols st
        /\ exists item r,
             firstItemNamed (deadName e) visited = Some item
             /\ analyzeSymbol project (deadName e) false = ok r
             /\ isReferenced r = false
             /\ e = snd item (deadName e) r).

End Characterisation.

(** ** Sample projects

    Each sample is a directory of source files and the tree the front end
    builds from it: the files in the order of [getSourceFiles()] (one
    directory, by file name), every identifier of a file in source order,
    [getPos] at the end of the preceding token, [line] and [column] of the
    identifier's first character counted from one, and for each binding
    the declaration node the language service names, with the [getPos] of
    that declaration.  A declaration that opens with a keyword or a
    modifier starts before its name; a method or property written without
    modifiers starts where its name does. *)

Module Samples.

Definition above (k : SyntaxKind) (name : option string) : Ancestor :=
  {| kind := k; getName := name; getModuleSpecifierValue := "" |}.

Definition importFrom (moduleSpecifier : string) : Ancestor :=
  {| kind := ImportDeclaration; getName := None;
     getModuleSpecifierValue := moduleSpecifier |}.

Definition declaredAt (file : string) (pos : nat) (k : SyntaxKind)
  : option DeclarationNode :=
  Some {| declFilePath := file; declPos := pos; declKind := k |}.

(** The identifier [n], met as the [ni]-th identifier of the [fi]-th file. *)
Definition occurrenceAt (fi ni : nat) (file : string) (n : IdentifierNode)
  : Occurrence :=
  {| nodeId := {| fileIndex := fi; nodeIndex := ni |};
     sourcePath := file; node := n |}.

(** *** A small tree of services

    [mailer.ts]:
<<
    export class Mailer {
      send(to: string) {}
    }
>>
    [notification.ts]:
<<
    export class NotificationService {
      notify(message: string) {}
    }
>>
    [types.ts]:
<<
    export interface IUser {
      id: string;
    }
>>
    [user.ts]:
<<
    import { Mailer } from './mailer';
    import { IUser } from './types';

    export class UserService {
      getUser(user: IUser) {
        new Mailer().send(user.id);
      }
    }
>>

    [Mailer] is instantiated and [send] is called in [user.ts]; nothing
    names [NotificationService] or [notify]; [IUser] is imported and
    used as a parameter type. *)

Definition mailerName : IdentifierNode :=
  {| getText := "Mailer"; getPos := 12; line := 1; column := 14;
     ancestors := [above ClassDeclaration (Some "Mailer")];
     getDefinitions := [declaredAt "/work/samples/mailer.ts" 0 ClassDeclaration] |}.

Definition mailerFile : SourceFile :=
  {| getFilePath := "/work/samples/mailer.ts";
     identifiers :=
       [ mailerName;
         {| getText := "send"; getPos := 21; line := 2; column := 3;
            ancestors := [above MethodDeclaration (Some "send");
                          above ClassDeclaration (Some "Mailer")];
            getDefinitions :=
              [declaredAt "/work/samples/mailer.ts" 21 MethodDeclaration] |};
         {| getText := "to"; getPos := 29; line := 2; column := 8;
            ancestors := [above OtherKind (Some "to");
                          above MethodDeclaration (Some "send");
                          above ClassDeclaration (Some "Mailer")];
            getDefinitions := [declaredAt "/work/samples/mailer.ts" 29 OtherKind] |} ];
     getFunctions := [];
     getClasses :=
       [ {| className := Some "Mailer";
            getMethods := ["send"]; getProperties := [] |} ];
     getInterfaces := [];
     getVariableDeclarations := [] |}.

Definition notifyName : IdentifierNode :=
  {| getText := "notify"; getPos := 34; line := 2; column := 3;
     ancestors := [above MethodDeclaration (Some "notify");
                   above ClassDeclaration (Some "NotificationService")];
     getDefinitions :=
       [declaredAt "/work/samples/notification.ts" 34 MethodDeclaration] |}.

Definition notificationFile : SourceFile :=
  {| getFilePath := "/work/samples/notification.ts";
     identifiers :=
       [ {| getText := "NotificationService"; getPos := 12; line := 1; column := 14;
            ancestors := [above ClassDeclaration (Some "NotificationService")];
            getDefinitions :=
              [declaredAt "/work/samples/notification.ts" 0 ClassDeclaration] |};
         notifyName;
         {| getText := "message"; getPos := 44; line := 2; column := 10;
            ancestors := [above OtherKind (Some "message");
                          above MethodDeclaration (Some "notify");
                          above ClassDeclaration (Some "NotificationService")];
            getDefinitions :=
              [declaredAt "/work/samples/notification.ts" 44 OtherKind] |} ];
     getFunctions := [];
     getClasses :=
       [ {| className := Some "NotificationService";
            getMethods := ["notify"]; getProperties := [] |} ];
     getInterfaces := [];
     getVariableDeclarations := [] |}.

Definition typesFile : SourceFile :=
  {| getFilePath := "/work/samples/types.ts";
     identifiers :=
       [ {| getText := "IUser"; getPos := 16; line := 1; column := 18;
            ancestors := [above InterfaceDeclaration (Some "IUser")];
            getDefinitions :=
              [declaredAt "/work/samples/types.ts" 0 InterfaceDeclaration] |};
         {| getText := "id"; getPos := 24; line := 2; column := 3;
            ancestors := [above PropertySignature (Some "id");
                          above InterfaceDeclaration (Some "IUser")];
            getDefinitions :=
              [declaredAt "/work/samples/types.ts" 24 PropertySignature] |} ];
     getFunctions := [];
     getClasses := [];
     getInterfaces := ["IUser"];
     getVariableDeclarations := [] |}.

Definition userFile : SourceFile :=
  {| getFilePath := "/work/samples/user.ts";
     identifiers :=
       [ {| getText := "Mailer"; getPos := 8; line := 1; column := 10;
            ancestors := [above ImportSpecifier None; above NamedImports None;
                          above ImportClause None; importFrom "./mailer"];
            getDefinitions :=
              [declaredAt "/work/samples/mailer.ts" 0 ClassDeclaration] |};
         {| getText := "IUser"; getPos := 43; line := 2; column := 10;
            ancestors := [above ImportSpecifier None; above NamedImports None;
                          above ImportClause None; importFrom "./types"];
            getDefinitions :=
              [declaredAt "/work/samples/types.ts" 0 InterfaceDeclaration] |};
         {| getText := "UserService"; getPos := 81; line := 4; column := 14;
            ancestors := [above ClassDeclaration (Some "UserService")];
            getDefinitions :=
              [declaredAt "/work/samples/user.ts" 67 ClassDeclaration] |};
         {| getText := "getUser"; getPos := 95; line := 5; column := 3;
            ancestors := [above MethodDeclaration (Some "getUser");
                          above ClassDeclaration (Some "UserService")];
            getDefinitions :=
              [declaredAt "/work/samples/user.ts" 95 MethodDeclaration] |};
         {| getText := "user"; getPos := 106; line := 5; column := 11;
            ancestors := [above OtherKind (Some "user");
                          above MethodDeclaration (Some "getUser");
                          above ClassDeclaration (Some "UserService")];
            getDefinitions := [declaredAt "/work/samples/user.ts" 106 OtherKind] |};
         {| getText := "IUser"; getPos := 111; line := 5; column := 17;
            ancestors := [above TypeReference None; above OtherKind (Some "user");
                          above MethodDeclaration (Some "getUser");
                          above ClassDeclaration (Some "UserService")];
            getDefinitions :=
              [declaredAt "/work/samples/types.ts" 0 InterfaceDeclaration] |};
         {| getText := "Mailer"; getPos := 128; line := 6; column := 9;
            ancestors := [above NewExpression None;
                          above PropertyAccessExpression None;
                          above CallExpression None; above OtherKind None;
                          above OtherKind None;
                          above MethodDeclaration (Some "getUser");
                          above ClassDeclaration (Some "UserService")];
            getDefinitions :=
              [declaredAt "/work/samples/mailer.ts" 0 ClassDeclaration] |};
         {| getText := "send"; getPos := 138; line := 6; column := 18;
            ancestors := [above PropertyAccessExpression None;
                          above CallExpression None; above OtherKind None;
                          above OtherKind None;
                          above MethodDeclaration (Some "getUser");
                          above ClassDeclaration (Some "UserService")];
            getDefinitions :=
              [declaredAt "/work/samples/mailer.ts" 21 MethodDeclaration] |};
         {| getText := "user"; getPos := 143; line := 6; column := 23;
            ancestors := [above PropertyAccessExpression None;
                          above CallExpression None; above OtherKind None;
                          above OtherKind None;
                          above MethodDeclaration (Some "getUser");
                          above ClassDeclaration (Some "UserService")];
            getDefinitions := [declaredAt "/work/samples/user.ts" 106 OtherKind] |};
         {| getText := "id"; getPos := 148; line := 6; column := 28;
            ancestors := [above PropertyAccessExpression None;
                          above CallExpression None; above OtherKind None;
                          above OtherKind None;
                          above MethodDeclaration (Some "getUser");
                          above ClassDeclaration (Some "UserService")];
            getDefinitions :=
              [declaredAt "/work/samples/types.ts" 24 PropertySignature] |} ];
     getFunctions := [];
     getClasses :=
       [ {| className := Some "UserService";
            getMethods := ["getUser"]; getProperties := [] |} ];
     getInterfaces := [];
     getVariableDeclarations := [] |}.

Definition sampleProject : Project :=
  [mailerFile; notificationFile; typesFile; userFile].

Definition mailerDefinition : Occurrence :=
  occurrenceAt 0 0 "/work/samples/mailer.ts" mailerName.

Definition notifyDefinition : Occurrence :=
  occurrenceAt 1 1 "/work/samples/notification.ts" notifyName.

(** *** A file that declares only a variable

    [config.ts]:
<<
    const unused = 1;
>> *)

Definition configFile : SourceFile :=
  {| getFilePath := "/work/src/config.ts";
     identifiers :=
       [ {| getText := "unused"; getPos := 5; line := 1; column := 7;
            ancestors := [above VariableDeclaration (Some "unused");
                          above OtherKind None; above OtherKind None];
            getDefinitions :=
              [declaredAt "/work/src/config.ts" 5 VariableDeclaration] |} ];
     getFunctions := [];
     getClasses := [];
     getInterfaces := [];
     getVariableDeclarations := ["unused"] |}.

Definition variableProject : Project := [configFile].

(** *** One name in three categories

    [runner.ts]:
<<
    function run() {}
    class Runner { run() {} }
    class Queue { run = false }
>> *)

Definition runnerFile : SourceFile :=
  {| getFilePath := "/work/src/runner.ts";
     identifiers :=
       [ {| getText := "run"; getPos := 8; line := 1; column := 10;
            ancestors := [above FunctionDeclaration (Some "run")];
            getDefinitions :=
              [declaredAt "/work/src/runner.ts" 0 FunctionDeclaration] |};
         {| getText := "Runner"; getPos := 23; line := 2; column := 7;
            ancestors := [above ClassDeclaration (Some "Runner")];
            getDefinitions := [declaredAt "/work/src/runner.ts" 17 ClassDeclaration] |};
         {| getText := "run"; getPos := 32; line := 2; column := 16;
            ancestors := [above MethodDeclaration (Some "run");
                          above ClassDeclaration (Some "Runner")];
            getDefinitions := [declaredAt "/work/src/runner.ts" 32 MethodDeclaration] |};
         {| getText := "Queue"; getPos := 49; line := 3; column := 7;
            ancestors := [above ClassDeclaration (Some "Queue")];
            getDefinitions := [declaredAt "/work/src/runner.ts" 43 ClassDeclaration] |};
         {| getText := "run"; getPos := 57; line := 3; column := 15;
            ancestors := [above PropertyDeclaration (Some "run");
                          above ClassDeclaration (Some "Queue")];
            getDefinitions :=
              [declaredAt "/work/src/runner.ts" 57 PropertyDeclaration] |} ];
     getFunctions := [Some "run"];
     getClasses :=
       [ {| className := Some "Runner";
            getMethods := ["run"]; getProperties := [] |};
         {| className := Some "Queue";
            getMethods := []; getProperties := ["run"] |} ];
     getInterfaces := [];
     getVariableDeclarations := [] |}.

Definition runnerProject : Project := [runnerFile].

(** *** An ambient file ahead of the real declaration

    [ambient.d.ts]:
<<
    import { Widget } from './widget';
    export declare class Panel {
      size: number;
    }
    export declare const first: Widget;
    export declare const width: typeof first.size;
>>
    [main.ts]:
<<
    import { Widget } from './widget';
    const w = new Widget();
    export const area = w.size * 2;
>>
    [widget.ts]:
<<
    export class Widget {
      size = 1;
    }
>>

    The ambient file declares a property [size] of its own and, in
    [typeof first.size], names the property [size] of [Widget]. *)

Definition panelSize : IdentifierNode :=
  {| getText := "size"; getPos := 63; line := 3; column := 3;
     ancestors := [above PropertyDeclaration (Some "size");
                   above ClassDeclaration (Some "Panel")];
     getDefinitions := [declaredAt "/work/src/ambient.d.ts" 63 PropertyDeclaration] |}.

Definition ambientSizeUse : IdentifierNode :=
  {| getText := "size"; getPos := 159; line := 6; column := 42;
     ancestors := [above OtherKind None; above OtherKind None;
                   above VariableDeclaration (Some "width"); above OtherKind None;
                   above OtherKind None];
     getDefinitions := [declaredAt "/work/src/widget.ts" 21 PropertyDeclaration] |}.

Definition ambientFile : SourceFile :=
  {| getFilePath := "/work/src/ambient.d.ts";
     identifiers :=
       [ {| getText := "Widget"; getPos := 8; line := 1; column := 10;
            ancestors := [above ImportSpecifier None; above NamedImports None;
                          above ImportClause None; importFrom "./widget"];
            getDefinitions := [declaredAt "/work/src/widget.ts" 0 ClassDeclaration] |};
         {| getText := "Panel"; getPos := 55; line := 2; column := 22;
            ancestors := [above ClassDeclaration (Some "Panel")];
            getDefinitions :=
              [declaredAt "/work/src/ambient.d.ts" 34 ClassDeclaration] |};
         panelSize;
         {| getText := "first"; getPos := 102; line := 5; column := 22;
            ancestors := [above VariableDeclaration (Some "first");
                          above OtherKind None; above OtherKind None];
            getDefinitions :=
              [declaredAt "/work/src/ambient.d.ts" 102 VariableDeclaration] |};
         {| getText := "Widget"; getPos := 109; line := 5; column := 29;
            ancestors := [above TypeReference None;
                          above VariableDeclaration (Some "first");
                          above OtherKind None; above OtherKind None];
            getDefinitions := [declaredAt "/work/src/widget.ts" 0 ClassDeclaration] |};
         {| getText := "width"; getPos := 138; line := 6; column := 22;
            ancestors := [above VariableDeclaration (Some "width");
                          above OtherKind None; above OtherKind None];
            getDefinitions :=
              [declaredAt "/work/src/ambient.d.ts" 138 VariableDeclaration] |};
         {| getText := "first"; getPos := 152; line := 6; column := 36;
            ancestors := [above OtherKind None; above OtherKind None;
                          above VariableDeclaration (Some "width");
                          above OtherKind None; above OtherKind None];
            getDefinitions :=
              [declaredAt "/work/src/ambient.d.ts" 102 VariableDeclaration] |};
         ambientSizeUse ];
     getFunctions := [];
     getClasses :=
       [ {| className := Some "Panel";
            getMethods := []; getProperties := ["size"] |} ];
     getInterfaces := [];
     getVariableDeclarations := ["first"; "width"] |}.

Definition mainSizeUse : IdentifierNode :=
  {| getText := "size"; getPos := 81; line := 3; column := 23;
     ancestors := [above PropertyAccessExpression None; above OtherKind None;
                   above VariableDeclaration (Some "area"); above OtherKind None;
                   above OtherKind None];
     getDefinitions := [declaredAt "/work/src/widget.ts" 21 PropertyDeclaration] |}.

Definition mainFile : SourceFile :=
  {| getFilePath := "/work/src/main.ts";
     identifiers :=
       [ {| getText := "Widget"; getPos := 8; line := 1; column := 10;
            ancestors := [above ImportSpecifier None; above NamedImports None;
                          above ImportClause None; importFrom "./widget"];
            getDefinitions := [declaredAt "/work/src/widget.ts" 0 ClassDeclaration] |};
         {| getText := "w"; getPos := 40; line := 2; column := 7;
            ancestors := [above VariableDeclaration (Some "w"); above OtherKind None;
                          above OtherKind None];
            getDefinitions := [declaredAt "/work/src/main.ts" 40 VariableDeclaration] |};
         {| getText := "Widget"; getPos := 48; line := 2; column := 15;
            ancestors := [above NewExpression None;
                          above VariableDeclaration (Some "w"); above OtherKind None;
                          above OtherKind None];
            getDefinitions := [declaredAt "/work/src/widget.ts" 0 ClassDeclaration] |};
         {| getText := "area"; getPos := 71; line := 3; column := 14;
            ancestors := [above VariableDeclaration (Some "area");
                          above OtherKind None; above OtherKind None];
            getDefinitions := [declaredAt "/work/src/main.ts" 71 VariableDeclaration] |};
         {| getText := "w"; getPos := 78; line := 3; column := 21;
            ancestors := [above PropertyAccessExpression None; above OtherKind None;
                          above VariableDeclaration (Some "area");
                          above OtherKind None; above OtherKind None];
            getDefinitions := [declaredAt "/work/src/main.ts" 40 VariableDeclaration] |};
         mainSizeUse ];
     getFunctions := [];
     getClasses := [];
     getInterfaces := [];
     getVariableDeclarations := ["w"; "area"] |}.

Definition widgetName : IdentifierNode :=
  {| getText := "Widget"; getPos := 12; line := 1; column := 14;
     ancestors := [above ClassDeclaration (Some "Widget")];
     getDefinitions := [declaredAt "/work/src/widget.ts" 0 ClassDeclaration] |}.

Definition widgetSize : IdentifierNode :=
  {| getText := "size"; getPos := 21; line := 2; column := 3;
     ancestors := [above PropertyDeclaration (Some "size");
                   above ClassDeclaration (Some "Widget")];
     getDefinitions := [declaredAt "/work/src/widget.ts" 21 PropertyDeclaration] |}.

Definition widgetFile : SourceFile :=
  {| getFilePath := "/work/src/widget.ts";
     identifiers :=
       [ widgetName;
         widgetSize ];
     getFunctions := [];
     getClasses :=
       [ {| className := Some "Widget";
            getMethods := []; getProperties := ["size"] |} ];
     getInterfaces := [];
     getVariableDeclarations := [] |}.

Definition ambientProject : Project := [ambientFile; mainFile; widgetFile].

Definition sizeDefinition : Occurrence :=
  occurrenceAt 2 1 "/work/src/widget.ts" widgetSize.

Definition ambientSize : Occurrence :=
  occurrenceAt 0 7 "/work/src/ambient.d.ts" ambientSizeUse.

Definition mainSize : Occurrence :=
  occurrenceAt 1 5 "/work/src/main.ts" mainSizeUse.

(** *** Two identifier nodes at one position

    A parse gives every identifier a position of its own.  This tree is
    built by hand to drive the guard of line 255: [generated.ts] holds
    two nodes for the [Widget] of one [new Widget()] and a third for
    another. *)

Definition widgetUse (pos l c : nat) : IdentifierNode :=
  {| getText := "Widget"; getPos := pos; line := l; column := c;
     ancestors := [above NewExpression None; above OtherKind None];
     getDefinitions := [declaredAt "/work/src/widget.ts" 0 ClassDeclaration] |}.

Definition generatedFile : SourceFile :=
  {| getFilePath := "/work/src/generated.ts";
     identifiers := [ widgetUse 3 1 5; widgetUse 3 1 5; widgetUse 17 2 5 ];
     getFunctions := []; getClasses := [];
     getInterfaces := []; getVariableDeclarations := [] |}.

Definition duplicateProject : Project := [generatedFile; widgetFile].

Definition widgetDefinition : Occurrence :=
  occurrenceAt 1 0 "/work/src/widget.ts" widgetName.

(** *** A helper called only in its own file

    [other.ts]:
<<
    import { run } from './utils';
    run();
>>
    [utils.ts]:
<<
    function helper() {}
    export function run() { helper(); }
>> *)

Definition otherFile : SourceFile :=
  {| getFilePath := "/work/src/other.ts";
     identifiers :=
       [ {| getText := "run"; getPos := 8; line := 1; column := 10;
            ancestors := [above ImportSpecifier None; above NamedImports None;
                          above ImportClause None; importFrom "./utils"];
            getDefinitions :=
              [declaredAt "/work/src/utils.ts" 20 FunctionDeclaration] |};
         {| getText := "run"; getPos := 30; line := 2; column := 1;
            ancestors := [above CallExpression None; above OtherKind None];
            getDefinitions :=
              [declaredAt "/work/src/utils.ts" 20 FunctionDeclaration] |} ];
     getFunctions := [];
     getClasses := [];
     getInterfaces := [];
     getVariableDeclarations := [] |}.

Definition helperName : IdentifierNode :=
  {| getText := "helper"; getPos := 8; line := 1; column := 10;
     ancestors := [above FunctionDeclaration (Some "helper")];
     getDefinitions := [declaredAt "/work/src/utils.ts" 0 FunctionDeclaration] |}.

Definition helperCall : IdentifierNode :=
  {| getText := "helper"; getPos := 44; line := 2; column := 25;
     ancestors := [above CallExpression None; above OtherKind None;
                   above OtherKind None; above FunctionDeclaration (Some "run")];
     getDefinitions := [declaredAt "/work/src/utils.ts" 0 FunctionDeclaration] |}.

Definition utilsFile : SourceFile :=
  {| getFilePath := "/work/src/utils.ts";
     identifiers :=
       [ helperName;
         {| getText := "run"; getPos := 36; line := 2; column := 17;
            ancestors := [above FunctionDeclaration (Some "run")];
            getDefinitions :=
              [declaredAt "/work/src/utils.ts" 20 FunctionDeclaration] |};
         helperCall ];
     getFunctions := [Some "helper"; Some "run"];
     getClasses := [];
     getInterfaces := [];
     getVariableDeclarations := [] |}.

Definition helperProject : Project := [otherFile; utilsFile].

Definition helperDefinition : Occurrence :=
  occurrenceAt 1 0 "/work/src/utils.ts" helperName.

Definition helperUse : Occurrence :=
  occurrenceAt 1 2 "/work/src/utils.ts" helperCall.

(** *** A method called only in its own class

    [job.ts]:
<<
    export class Job {
      step() {}
      run() { this.step(); }
    }
>> *)

Definition stepName : IdentifierNode :=
  {| getText := "step"; getPos := 18; line := 2; column := 3;
     ancestors := [above MethodDeclaration (Some "step");
                   above ClassDeclaration (Some "Job")];
     getDefinitions := [declaredAt "/work/src/job.ts" 18 MethodDeclaration] |}.

Definition stepCall : IdentifierNode :=
  {| getText := "step"; getPos := 46; line := 3; column := 16;
     ancestors := [above PropertyAccessExpression None; above CallExpression None;
                   above OtherKind None; above OtherKind None;
                   above MethodDeclaration (Some "run");
                   above ClassDeclaration (Some "Job")];
     getDefinitions := [declaredAt "/work/src/job.ts" 18 MethodDeclaration] |}.

Definition jobFile : SourceFile :=
  {| getFilePath := "/work/src/job.ts";
     identifiers :=
       [ {| getText := "Job"; getPos := 12; line := 1; column := 14;
            ancestors := [above ClassDeclaration (Some "Job")];
            getDefinitions := [declaredAt "/work/src/job.ts" 0 ClassDeclaration] |};
         stepName;
         {| getText := "run"; getPos := 30; line := 3; column := 3;
            ancestors := [above MethodDeclaration (Some "run");
                          above ClassDeclaration (Some "Job")];
            getDefinitions := [declaredAt "/work/src/job.ts" 30 MethodDeclaration] |};
         stepCall ];
     getFunctions := [];
     getClasses :=
       [ {| className := Some "Job";
            getMethods := ["step"; "run"]; getProperties := [] |} ];
     getInterfaces := [];
     getVariableDeclarations := [] |}.

Definition jobProject : Project := [jobFile].

Definition stepDefinition : Occurrence :=
  occurrenceAt 0 1 "/work/src/job.ts" stepName.

Definition stepUse : Occurrence :=
  occurrenceAt 0 3 "/work/src/job.ts" stepCall.

(** *** Imports of four shapes

    [app.ts]:
<<
    import Logger from 'lib/logger';
>>
    [cli.ts]:
<<
    import { Logger } from './logger';
>>
    [jobs.ts]:
<<
    import { Logger } from 'lib/logger';
>>
    [logger.ts]:
<<
    export class Logger {}
>>
    [tool.ts]:
<<
    import { Logger } from './logger.ts';
>>

    No package [lib/logger] is installed: the names imported from it
    bind to the import clause and the import specifier themselves.  The
    two relative imports bind to the class declaration of [logger.ts]. *)

Definition defaultImportName : IdentifierNode :=
  {| getText := "Logger"; getPos := 6; line := 1; column := 8;
     ancestors := [above ImportClause None; importFrom "lib/logger"];
     getDefinitions := [declaredAt "/work/src/app.ts" 6 ImportClause] |}.

Definition appFile : SourceFile :=
  {| getFilePath := "/work/src/app.ts";
     identifiers :=
       [ defaultImportName ];
     getFunctions := [];
     getClasses := [];
     getInterfaces := [];
     getVariableDeclarations := [] |}.

Definition relativeSpecifierName : IdentifierNode :=
  {| getText := "Logger"; getPos := 8; line := 1; column := 10;
     ancestors := [above ImportSpecifier None; above NamedImports None;
                   above ImportClause None; importFrom "./logger"];
     getDefinitions := [declaredAt "/work/src/logger.ts" 0 ClassDeclaration] |}.

Definition cliFile : SourceFile :=
  {| getFilePath := "/work/src/cli.ts";
     identifiers :=
       [ relativeSpecifierName ];
     getFunctions := [];
     getClasses := [];
     getInterfaces := [];
     getVariableDeclarations := [] |}.

Definition packageSpecifierName : IdentifierNode :=
  {| getText := "Logger"; getPos := 8; line := 1; column := 10;
     ancestors := [above ImportSpecifier None; above NamedImports None;
                   above ImportClause None; importFrom "lib/logger"];
     getDefinitions := [declaredAt "/work/src/jobs.ts" 8 ImportSpecifier] |}.

Definition jobsFile : SourceFile :=
  {| getFilePath := "/work/src/jobs.ts";
     identifiers :=
       [ packageSpecifierName ];
     getFunctions := [];
     getClasses := [];
     getInterfaces := [];
     getVariableDeclarations := [] |}.

Definition loggerClassName : IdentifierNode :=
  {| getText := "Logger"; getPos := 12; line := 1; column := 14;
     ancestors := [above ClassDeclaration (Some "Logger")];
     getDefinitions := [declaredAt "/work/src/logger.ts" 0 ClassDeclaration] |}.

Definition loggerFile : SourceFile :=
  {| getFilePath := "/work/src/logger.ts";
     identifiers :=
       [ loggerClassName ];
     getFunctions := [];
     getClasses :=
       [ {| className := Some "Logger";
            getMethods := []; getProperties := [] |} ];
     getInterfaces := [];
     getVariableDeclarations := [] |}.

Definition extensionSpecifierName : IdentifierNode :=
  {| getText := "Logger"; getPos := 8; line := 1; column := 10;
     ancestors := [above ImportSpecifier None; above NamedImports None;
                   above ImportClause None; importFrom "./logger.ts"];
     getDefinitions := [declaredAt "/work/src/logger.ts" 0 ClassDeclaration] |}.

Definition toolFile : SourceFile :=
  {| getFilePath := "/work/src/tool.ts";
     identifiers :=
       [ extensionSpecifierName ];
     getFunctions := [];
     getClasses := [];
     getInterfaces := [];
     getVariableDeclarations := [] |}.

Definition importProject : Project :=
  [appFile; cliFile; jobsFile; loggerFile; toolFile].

Definition loggerDefinition : Occurrence :=
  occurrenceAt 3 0 "/work/src/logger.ts" loggerClassName.

Definition defaultImport : Occurrence :=
  occurrenceAt 0 0 "/work/src/app.ts" defaultImportName.

Definition relativeSpecifier : Occurrence :=
  occurrenceAt 1 0 "/work/src/cli.ts" relativeSpecifierName.

Definition packageSpecifier : Occurrence :=
  occurrenceAt 2 0 "/work/src/jobs.ts" packageSpecifierName.

Definition extensionSpecifier : Occurrence :=
  occurrenceAt 4 0 "/work/src/tool.ts" extensionSpecifierName.

(** *** A class merged with an interface

    [greeter.ts]:
<<
    class Greeter {
      greet() {}
    }
>>
    [more.ts]:
<<
    interface Greeter {
      greet(): void;
    }
>>

    Neither file is a module, so the class and the interface merge and
    the signature [greet] of the interface names the method of the class. *)

Definition greetMethodName : IdentifierNode :=
  {| getText := "greet"; getPos := 15; line := 2; column := 3;
     ancestors := [above MethodDeclaration (Some "greet");
                   above ClassDeclaration (Some "Greeter")];
     getDefinitions := [declaredAt "/work/src/greeter.ts" 15 MethodDeclaration] |}.

Definition greeterFile : SourceFile :=
  {| getFilePath := "/work/src/greeter.ts";
     identifiers :=
       [ {| getText := "Greeter"; getPos := 5; line := 1; column := 7;
            ancestors := [above ClassDeclaration (Some "Greeter")];
            getDefinitions :=
              [declaredAt "/work/src/greeter.ts" 0 ClassDeclaration;
               declaredAt "/work/src/more.ts" 0 InterfaceDeclaration] |};
         greetMethodName ];
     getFunctions := [];
     getClasses :=
       [ {| className := Some "Greeter";
            getMethods := ["greet"]; getProperties := [] |} ];
     getInterfaces := [];
     getVariableDeclarations := [] |}.

Definition greetSignatureName : IdentifierNode :=
  {| getText := "greet"; getPos := 19; line := 2; column := 3;
     ancestors := [above MethodSignature (Some "greet");
                   above InterfaceDeclaration (Some "Greeter")];
     getDefinitions := [declaredAt "/work/src/greeter.ts" 15 MethodDeclaration] |}.

Definition moreFile : SourceFile :=
  {| getFilePath := "/work/src/more.ts";
     identifiers :=
       [ {| getText := "Greeter"; getPos := 9; line := 1; column := 11;
            ancestors := [above InterfaceDeclaration (Some "Greeter")];
            getDefinitions :=
              [declaredAt "/work/src/greeter.ts" 0 ClassDeclaration;
               declaredAt "/work/src/more.ts" 0 InterfaceDeclaration] |};
         greetSignatureName ];
     getFunctions := [];
     getClasses := [];
     getInterfaces := ["Greeter"];
     getVariableDeclarations := [] |}.

Definition mergedProject : Project := [greeterFile; moreFile].

Definition greetDefinition : Occurrence :=
  occurrenceAt 0 1 "/work/src/greeter.ts" greetMethodName.

Definition greetSignature : Occurrence :=
  occurrenceAt 1 1 "/work/src/more.ts" greetSignatureName.

(** *** A function and an unrelated class of one name

    [auth.ts]:
<<
    export function Session() {}
>>
    [legacy.ts]:
<<
    class Session {}
    new Session();
>>

    [auth.ts] is a module; the [Session] of [legacy.ts] is the class
    declared there. *)

Definition sessionFunctionName : IdentifierNode :=
  {| getText := "Session"; getPos := 15; line := 1; column := 17;
     ancestors := [above FunctionDeclaration (Some "Session")];
     getDefinitions := [declaredAt "/work/src/auth.ts" 0 FunctionDeclaration] |}.

Definition authFile : SourceFile :=
  {| getFilePath := "/work/src/auth.ts";
     identifiers :=
       [ sessionFunctionName ];
     getFunctions := [Some "Session"];
     getClasses := [];
     getInterfaces := [];
     getVariableDeclarations := [] |}.

Definition sessionInstantiationName : IdentifierNode :=
  {| getText := "Session"; getPos := 20; line := 2; column := 5;
     ancestors := [above NewExpression None; above OtherKind None];
     getDefinitions := [declaredAt "/work/src/legacy.ts" 0 ClassDeclaration] |}.

Definition legacyFile : SourceFile :=
  {| getFilePath := "/work/src/legacy.ts";
     identifiers :=
       [ {| getText := "Session"; getPos := 5; line := 1; column := 7;
            ancestors := [above ClassDeclaration (Some "Session")];
            getDefinitions := [declaredAt "/work/src/legacy.ts" 0 ClassDeclaration] |};
         sessionInstantiationName ];
     getFunctions := [];
     getClasses :=
       [ {| className := Some "Session";
            getMethods := []; getProperties := [] |} ];
     getInterfaces := [];
     getVariableDeclarations := [] |}.

Definition fallbackProject : Project := [authFile; legacyFile].

Definition sessionDefinition : Occurrence :=
  occurrenceAt 0 0 "/work/src/auth.ts" sessionFunctionName.

Definition sessionInstantiation : Occurrence :=
  occurrenceAt 1 1 "/work/src/legacy.ts" sessionInstantiationName.

(** *** A class declared inside a method

    [outer.ts]:
<<
    class Outer { build() { class Inner { size = limit } } }
>>

    [limit] stands in a property initialiser of [Inner], inside the
    method [build] of [Outer]; it is declared nowhere. *)

Definition limitUse : IdentifierNode :=
  {| getText := "limit"; getPos := 44; line := 1; column := 46;
     ancestors := [above PropertyDeclaration (Some "size");
                   above ClassDeclaration (Some "Inner"); above OtherKind None;
                   above MethodDeclaration (Some "build");
                   above ClassDeclaration (Some "Outer")];
     getDefinitions := [] |}.

Definition outerFile : SourceFile :=
  {| getFilePath := "/work/src/outer.ts";
     identifiers :=
       [ {| getText := "Outer"; getPos := 5; line := 1; column := 7;
            ancestors := [above ClassDeclaration (Some "Outer")];
            getDefinitions := [declaredAt "/work/src/outer.ts" 0 ClassDeclaration] |};
         {| getText := "build"; getPos := 13; line := 1; column := 15;
            ancestors := [above MethodDeclaration (Some "build");
                          above ClassDeclaration (Some "Outer")];
            getDefinitions := [declaredAt "/work/src/outer.ts" 13 MethodDeclaration] |};
         {| getText := "Inner"; getPos := 29; line := 1; column := 31;
            ancestors := [above ClassDeclaration (Some "Inner"); above OtherKind None;
                          above MethodDeclaration (Some "build");
                          above ClassDeclaration (Some "Outer")];
            getDefinitions := [declaredAt "/work/src/outer.ts" 23 ClassDeclaration] |};
         {| getText := "size"; getPos := 37; line := 1; column := 39;
            ancestors := [above PropertyDeclaration (Some "size");
                          above ClassDeclaration (Some "Inner"); above OtherKind None;
                          above MethodDeclaration (Some "build");
                          above ClassDeclaration (Some "Outer")];
            getDefinitions :=
              [declaredAt "/work/src/outer.ts" 37 PropertyDeclaration] |};
         limitUse ];
     getFunctions := [];
     getClasses :=
       [ {| className := Some "Outer";
            getMethods := ["build"]; getProperties := [] |} ];
     getInterfaces := [];
     getVariableDeclarations := [] |}.

Definition nestedProject : Project := [outerFile].

End Samples.

(** ** Vocabulary for the outcome of a scan *)

(** The names a scan analyses or passes over: the truthy names of its
    items, in order, repeats included. *)
Definition truthyNames {A} (items : list (option string * A)) : list string :=
  omap (fun item => match fst item with
                    | Some n => if String.eqb n "" then None else Some n
                    | None => None
                    end)
       items.

Section Verdicts.

Context {path : PathApi}.

(** What the scan state records about the names checked so far: every
    entry's name has been checked, and a checked name was analysed with
    success and has an entry exactly when the analysis found no reference. *)
Definition ScanVerdicts (project : Project) (st : ScanState) : Prop :=
  (forall e, e ∈ unreferencedSymbols st -> deadName e ∈ checkedSymbols st)
  /\ (forall n, n ∈ checkedSymbols st ->
        exists r, analyzeSymbol project n false = ok r
                  /\ (n ∈ map deadName (unreferencedSymbols st)
                      <-> isReferenced r = false)).

End Verdicts.

(** ** Proofs *)

Local Open Scope list_scope.

Section Proofs.

Context {path : PathApi} {front : ProjectApi}.

(** *** Lists *)

Lemma find_app_first {A} (f : A -> bool) (l1 l2 : list A) :
  List.find f (l1 ++ l2)
  = match List.find f l1 with Some x => Some x | None => List.find f l2 end.
Proof. induction l1 as [|x l1 IH]; simpl; [done|]. by destruct (f x). Qed.

Lemma find_none_iff {A} (f : A -> bool) (l : list A) :
  List.find f l = None <-> forall x, x ∈ l -> f x = false.
Proof.
  split.
  - intros H x Hx. apply list_elem_of_In in Hx. by eapply List.find_none.
  - induction l as [|x l IH]; simpl; [done|]. intros H.
    rewrite (H x) by left. apply IH. intros y Hy. apply H. by right.
Qed.

Lemma filter_filter_andb {A} (f g : A -> bool) (l : list A) :
  List.filter f (List.filter g l) = List.filter (fun x => g x && f x) l.
Proof.
  induction l as [|x l IH]; simpl; [done|].
  destruct (g x); simpl; [destruct (f x)|]; by rewrite ?IH.
Qed.

Lemma filter_all {A} (f : A -> bool) (l : list A) :
  (forall x, x ∈ l -> f x = true) -> List.filter f l = l.
Proof.
  induction l as [|x l IH]; intros H; simpl; [done|].
  rewrite (H x) by left. f_equal. apply IH. intros y Hy. apply H. by right.
Qed.

Lemma filter_none {A} (f : A -> bool) (l : list A) :
  (forall x, x ∈ l -> f x = false) -> List.filter f l = [].
Proof.
  induction l as [|x l IH]; intros H; simpl; [done|].
  rewrite (H x) by left. apply IH. intros y Hy. apply H. by right.
Qed.

Lemma elem_of_concat {A} (x : A) (ls : list (list A)) :
  x ∈ concat ls <-> exists l, x ∈ l /\ l ∈ ls.
Proof.
  rewrite list_elem_of_In, in_concat. split.
  - intros (l & ? & ?). exists l. by rewrite !list_elem_of_In.
  - intros (l & ? & ?). exists l. by rewrite <- !list_elem_of_In.
Qed.

(** *** The definition search *)

Lemma identifiersNamed_spec name fi sf o :
  o ∈ identifiersNamed name fi sf <->
  exists ni n, identifiers sf !! ni = Some n
               /\ getText n = name
               /\ o = {| nodeId := {| fileIndex := fi; nodeIndex := ni |};
                         sourcePath := getFilePath sf; node := n |}.
Proof.
  unfold identifiersNamed. rewrite list_elem_of_In, filter_In, <- list_elem_of_In.
  rewrite elem_of_lookup_imap. split.
  - intros [(ni & n & -> & Hn) Ht]. simpl in Ht.
    apply String.eqb_eq in Ht. eauto 6.
  - intros (ni & n & Hn & Ht & ->). split; [eauto|].
    simpl. by apply String.eqb_eq.
Qed.

Lemma identifiersNamed_path name fi sf o :
  o ∈ identifiersNamed name fi sf -> sourcePath o = getFilePath sf.
Proof. rewrite identifiersNamed_spec. by intros (? & ? & _ & _ & ->). Qed.

Lemma findDefinitionFrom_first name files : forall fi,
  findDefinitionFrom name fi files
  = List.find isDefinitionCandidate
      (concat (imap (fun i => identifiersNamed name (fi + i)) files)).
Proof.
  induction files as [|sf rest IH]; intros fi; [done|].
  rewrite imap_cons. simpl concat. rewrite find_app_first, Nat.add_0_r.
  simpl findDefinitionFrom. rewrite IH.
  assert (Hshift : imap (fun i => identifiersNamed name (S fi + i)) rest
                   = imap ((fun i => identifiersNamed name (fi + i)) ∘ S) rest).
  { apply imap_ext. intros i x _. simpl. by rewrite Nat.add_succ_r. }
  rewrite Hshift. clear Hshift.
  destruct (isDeclarationFile (getFilePath sf)) eqn:Hd.
  - assert (List.find isDefinitionCandidate (identifiersNamed name fi sf) = None) as ->; [|done].
    apply find_none_iff. intros o Ho. unfold isDefinitionCandidate.
    by rewrite (identifiersNamed_path _ _ _ _ Ho), Hd.
  - assert (List.find isDefinitionCandidate (identifiersNamed name fi sf)
            = List.find acceptsAsDefinition (identifiersNamed name fi sf)) as ->; [|done].
    generalize (identifiersNamed_path name fi sf).
    induction (identifiersNamed name fi sf) as [|o os IHos]; intros Hp; [done|].
    simpl. unfold isDefinitionCandidate at 1.
    rewrite (Hp o) by left. rewrite Hd. simpl.
    destruct (acceptsAsDefinition o); [done|]. apply IHos. intros o' Ho'. apply Hp. by right.
Qed.

Lemma findDefinition_first project name :
  findDefinition project name
  = List.find isDefinitionCandidate (occurrences project name).
Proof. unfold findDefinition, occurrences. by rewrite findDefinitionFrom_first. Qed.

(** *** The reference loops *)

Lemma visitNode_skip def st o :
  producesReference def o = false -> visitNode def st o = st.
Proof.
  unfold producesReference, visitNode. intros H.
  destruct (isReferenceToDefinition def o); [|done].
  destruct (isDeclarationFile (sourcePath o)); [done|].
  destruct (isDefinitionItself def o); [done|].
  destruct (isForeignImport def o); [done|]. discriminate.
Qed.

Lemma visitNode_push def st o :
  producesReference def o = true ->
  visitNode def st o
  = if bool_decide (refKey (siteOf o) ∈ refsSet st) then st
    else {| refs := refs st ++ [siteOf o];
            refsSet := refsSet st ∪ {[refKey (siteOf o)]} |}.
Proof.
  unfold producesReference, visitNode. intros H.
  destruct (isReferenceToDefinition def o); [|done].
  destruct (isDeclarationFile (sourcePath o)); [done|].
  destruct (isDefinitionItself def o); [done|].
  destruct (isForeignImport def o); done.
Qed.

Lemma visitNode_foldl def os : forall st,
  let sites := map siteOf (List.filter (producesReference def) os) in
  refs (foldl (visitNode def) st os) = refs st ++ firstPerKey (refsSet st) sites
  /\ refsSet (foldl (visitNode def) st os)
     = refsSet st ∪ list_to_set (map refKey sites).
Proof.
  induction os as [|o os IH]; intros st; simpl.
  - rewrite app_nil_r. split; [done|set_solver].
  - destruct (producesReference def o) eqn:Hp.
    + rewrite (visitNode_push _ _ _ Hp). simpl.
      case_bool_decide as Hin.
      * destruct (IH st) as [-> ->]. split; [done|set_solver].
      * destruct (IH {| refs := refs st ++ [siteOf o];
                        refsSet := refsSet st ∪ {[refKey (siteOf o)]} |}) as [-> ->].
        simpl. rewrite <- app_assoc. split; [done|set_solver].
    + rewrite (visitNode_skip _ _ _ Hp). apply IH.
Qed.

Lemma visitFile_foldl name include def files : forall fi st,
  foldl (visitFile name include def) st (imap (fun i sf => (fi + i, sf)) files)
  = foldl (visitNode def) st
      (List.filter (isScanned include def)
         (concat (imap (fun i => identifiersNamed name (fi + i)) files))).
Proof.
  induction files as [|sf rest IH]; intros fi st; [done|].
  rewrite !imap_cons. simpl concat. rewrite List.filter_app, foldl_app.
  rewrite Nat.add_0_r.
  assert (Hshift1 : imap ((fun i sf0 => (fi + i, sf0)) ∘ S) rest
                    = imap (fun i sf0 => (S fi + i, sf0)) rest).
  { apply imap_ext. intros i x _. simpl. by rewrite Nat.add_succ_r. }
  assert (Hshift2 : imap ((fun i => identifiersNamed name (fi + i)) ∘ S) rest
                    = imap (fun i => identifiersNamed name (S fi + i)) rest).
  { apply imap_ext. intros i x _. simpl. by rewrite Nat.add_succ_r. }
  rewrite Hshift1, Hshift2. cbn [foldl]. rewrite IH. f_equal.
  unfold visitFile.
  destruct (String.eqb (getFilePath sf) (sourcePath def) && negb include) eqn:Hskip.
  - rewrite filter_none; [done|]. intros o Ho. unfold isScanned.
    by rewrite (identifiersNamed_path _ _ _ _ Ho), Hskip.
  - rewrite filter_all; [done|]. intros o Ho. unfold isScanned.
    by rewrite (identifiersNamed_path _ _ _ _ Ho), Hskip.
Qed.

Lemma collectReferences_spec project name include def :
  let sites := map siteOf (referenceOccurrences project name include def) in
  refs (collectReferences project name include def) = firstPerKey ∅ sites
  /\ refsSet (collectReferences project name include def)
     = list_to_set (map refKey sites).
Proof.
  unfold collectReferences, referenceOccurrences, occurrences.
  assert (Himap : imap pair project = imap (fun i sf => (0 + i, sf)) project)
    by (by apply imap_ext).
  rewrite Himap, visitFile_foldl.
  change (fun i => identifiersNamed name (0 + i)) with (identifiersNamed name).
  rewrite <- filter_filter_andb.
  destruct (visitNode_foldl def
              (List.filter (isScanned include def)
                 (concat (imap (identifiersNamed name) project)))
              emptyRefState) as [Hr Hs].
  rewrite Hr, Hs. simpl. split; [done|set_solver].
Qed.

(** *** De-duplication *)

Lemma firstPerKey_elem sites : forall seen e,
  e ∈ firstPerKey seen sites -> e ∈ sites /\ refKey e ∉ seen.
Proof.
  induction sites as [|s rest IH]; intros seen e; simpl.
  - by intros ?%elem_of_nil.
  - case_bool_decide as Hin.
    + intros [? ?]%IH. split; [by right|done].
    + intros [->|He]%elem_of_cons; [split; [by left|done]|].
      apply IH in He as [? Hn]. split; [by right|]. set_solver.
Qed.

Lemma firstPerKey_keys sites : forall seen k,
  k ∈ map refKey (firstPerKey seen sites) <-> k ∈ map refKey sites /\ k ∉ seen.
Proof.
  induction sites as [|s rest IH]; intros seen k; simpl.
  - split; [by intros ?%elem_of_nil|by intros [?%elem_of_nil _]].
  - case_bool_decide as Hin.
    + rewrite IH, elem_of_cons. split; [intros [? ?]; by split; [right|]|].
      intros [[->|?] Hn]; [done|by split].
    + simpl. rewrite !elem_of_cons, IH. split.
      * intros [->|[? Hn]]; [split; [by left|done]|]. split; [by right|set_solver].
      * intros [[->|?] Hn]; [by left|].
        destruct (decide (k = refKey s)) as [->|Hne]; [by left|].
        right. split; [done|set_solver].
Qed.






(** *** The shape of a result *)

Lemma analyzeSymbol_found project name include def :
  findDefinition project name = Some def ->
  analyzeSymbol project name include
  = ok {| symbol := name;
          type := symbolTypeOf def;
          definition := definitionSite def;
          references :=
            firstPerKey ∅ (map siteOf (referenceOccurrences project name include def));
          isReferenced :=
            bool_decide
              (0 < length (firstPerKey ∅
                             (map siteOf (referenceOccurrences project name include def)))) |}.
Proof.
  intros Hdef. unfold analyzeSymbol. rewrite Hdef.
  destruct (collectReferences_spec project name include def) as [Hr _].
  simpl in Hr. by rewrite Hr.
Qed.

Lemma analyzeSymbol_not_found project name include :
  findDefinition project name = None ->
  analyzeSymbol project name include = throw (SymbolNotFound name).
Proof. intros Hdef. unfold analyzeSymbol. by rewrite Hdef. Qed.

Lemma analyzeSymbol_ok_inv project name include r :
  analyzeSymbol project name include = ok r ->
  exists def,
    findDefinition project name = Some def
    /\ type r = symbolTypeOf def
    /\ definition r = definitionSite def
    /\ references r
       = firstPerKey ∅ (map siteOf (referenceOccurrences project name include def))
    /\ isReferenced r = bool_decide (0 < length (references r)).
Proof.
  destruct (findDefinition project name) as [def|] eqn:Hdef.
  - rewrite (analyzeSymbol_found _ _ _ _ Hdef). intros [= <-]. by exists def.
  - by rewrite (analyzeSymbol_not_found _ _ _ Hdef).
Qed.

Lemma findDefinition_candidate project name def :
  findDefinition project name = Some def ->
  def ∈ occurrences project name /\ isDefinitionCandidate def = true.
Proof.
  rewrite findDefinition_first. intros [Hin Hc]%List.find_some.
  by apply list_elem_of_In in Hin.
Qed.

Lemma candidate_parent def :
  isDefinitionCandidate def = true ->
  isDeclarationFile (sourcePath def) = false
  /\ exists parent above,
       ancestors (node def) = parent :: above
       /\ isDefinitionParent parent = true.
Proof.
  unfold isDefinitionCandidate, acceptsAsDefinition, getParent.
  intros [Hd Ha]%andb_prop. apply negb_true_iff in Hd. split; [done|].
  destruct (ancestors (node def)) as [|parent above]; [done|]. eauto.
Qed.

Lemma reference_origin project name include def e :
  e ∈ firstPerKey ∅ (map siteOf (referenceOccurrences project name include def)) ->
  exists o, o ∈ referenceOccurrences project name include def /\ siteOf o = e.
Proof.
  intros [He _]%firstPerKey_elem.
  apply list_elem_of_fmap in He as (o & -> & Ho). eauto.
Qed.

Lemma referenceOccurrences_spec project name include def o :
  o ∈ referenceOccurrences project name include def <->
  o ∈ occurrences project name
  /\ isScanned include def o = true
  /\ producesReference def o = true.
Proof.
  unfold referenceOccurrences.
  rewrite list_elem_of_In, filter_In, <- list_elem_of_In, andb_true_iff. tauto.
Qed.

Lemma definition_not_reference def o :
  isDefinitionCandidate def = true ->
  nodeId o = nodeId def -> ancestors (node o) = ancestors (node def) ->
  producesReference def o = false.
Proof.
  intros (_ & parent & above & Ha & Hp)%candidate_parent Hid Hanc.
  unfold producesReference, isDefinitionItself. rewrite Hanc, Ha.
  rewrite bool_decide_eq_true_2 by done.
  unfold isDefinitionParent in Hp. simpl.
  assert (Hk : (isKind parent ClassDeclaration
                || isKind parent InterfaceDeclaration
                || isKind parent FunctionDeclaration
                || isKind parent MethodDeclaration
                || isKind parent PropertyDeclaration
                || isKind parent MethodSignature) = true)
    by (rewrite Hp; done).
  rewrite Hk. simpl. by rewrite andb_false_r, andb_false_l.
Qed.

Lemma occurrences_spec project name o :
  o ∈ occurrences project name <->
  exists fi sf ni n,
    project !! fi = Some sf /\ identifiers sf !! ni = Some n /\ getText n = name
    /\ o = {| nodeId := {| fileIndex := fi; nodeIndex := ni |};
              sourcePath := getFilePath sf; node := n |}.
Proof.
  unfold occurrences. rewrite elem_of_concat. split.
  - intros (os & Ho & (fi & sf & -> & Hsf)%elem_of_lookup_imap).
    apply identifiersNamed_spec in Ho as (ni & n & ? & ? & ->). eauto 10.
  - intros (fi & sf & ni & n & Hsf & Hn & Ht & ->).
    exists (identifiersNamed name fi sf). split.
    + apply identifiersNamed_spec. eauto.
    + apply elem_of_lookup_imap. eauto.
Qed.

(** Node identity is faithful: an identity names one occurrence. *)
Lemma nodeId_identifies project name o1 o2 :
  o1 ∈ occurrences project name -> o2 ∈ occurrences project name ->
  nodeId o1 = nodeId o2 -> o1 = o2.
Proof.
  rewrite !occurrences_spec.
  intros (fi & sf & ni & n & Hsf & Hn & _ & ->)
         (fi' & sf' & ni' & n' & Hsf' & Hn' & _ & ->) [= <- <-].
  by simplify_eq.
Qed.

(** *** Kind of the located symbol *)

Lemma symbolTypeOf_parent def parent :
  getParent (node def) = Some parent ->
  isDefinitionParent parent = true ->
  symbolTypeOf def
  = match kind parent with
    | ClassDeclaration => KClass
    | InterfaceDeclaration => KInterface
    | _ => KFunction
    end.
Proof.
  intros Hp Hk. unfold symbolTypeOf. rewrite Hp.
  unfold symbolTypeAfter, symbolTypeInLoop, isDefinitionParent, isKind in *.
  destruct (kind parent); try done.
Qed.

(** C1 (as amended).  The first accepted declaration occurrence, in
    file-then-occurrence order with ambient files skipped, has a class,
    interface, function, method or property declaration as parent, and
    [analyzeSymbol] reports [class] for a class declaration, [interface]
    for an interface declaration, and [function] for a function, method
    or property declaration. *)
Theorem analyzeSymbol_kind_of_parent project name include def :
  List.find isDefinitionCandidate (occurrences project name) = Some def ->
  exists parent r,
    getParent (node def) = Some parent
    /\ kind parent ∈ [ClassDeclaration; InterfaceDeclaration; FunctionDeclaration;
                      MethodDeclaration; PropertyDeclaration]
    /\ analyzeSymbol project name include = ok r
    /\ type r = match kind parent with
                | ClassDeclaration => KClass
                | InterfaceDeclaration => KInterface
                | _ => KFunction
                end.
Proof.
  rewrite <- findDefinition_first. intros Hdef.
  destruct (findDefinition_candidate _ _ _ Hdef) as [_ Hc].
  destruct (candidate_parent _ Hc) as (_ & parent & above & Ha & Hp).
  assert (Hparent : getParent (node def) = Some parent)
    by (unfold getParent; by rewrite Ha).
  eexists parent, _. split; [done|]. split; [|split].
  - unfold isDefinitionParent, isKind in Hp.
    destruct (kind parent); try done; set_solver.
  - by apply analyzeSymbol_found.
  - simpl. by apply symbolTypeOf_parent.
Qed.

(** *** Failure and success *)

(** C3.  [analyzeSymbol] throws, and then [SymbolNotFound], exactly when
    no occurrence of the name outside ambient files has an accepted
    parent; otherwise it returns a result, whose flag is false exactly
    when the reference list is empty, and every returned reference comes
    from a reference-producing occurrence that is not the definition
    node, for either setting of the option; where a site names one
    occurrence only, the definition's own site is not in the list. *)
Theorem analyzeSymbol_not_found_or_result project name include :
  (analyzeSymbol project name include = throw (SymbolNotFound name)
   <-> forall o, o ∈ occurrences project name -> isDefinitionCandidate o = false)
  /\ (forall e, analyzeSymbol project name include = throw e ->
                e = SymbolNotFound name)
  /\ ((exists o, o ∈ occurrences project name /\ isDefinitionCandidate o = true) ->
      exists def r,
        findDefinition project name = Some def
        /\ analyzeSymbol project name include = ok r
        /\ (isReferenced r = false <-> references r = [])
        /\ (forall o, o ∈ referenceOccurrences project name include def ->
                      nodeId o <> nodeId def)
        /\ (forall e, e ∈ references r ->
              exists o, o ∈ referenceOccurrences project name include def
                        /\ siteOf o = e /\ nodeId o <> nodeId def)
        /\ ((forall o, o ∈ occurrences project name -> siteOf o = siteOf def -> o = def) ->
            siteOf def ∉ references r)).
Proof.
  assert (Hnone : findDefinition project name = None
                  <-> forall o, o ∈ occurrences project name ->
                                isDefinitionCandidate o = false)
    by (rewrite findDefinition_first; apply find_none_iff).
  split; [|split].
  - rewrite <- Hnone. split.
    + destruct (findDefinition project name) as [def|] eqn:Hdef; [|done].
      by rewrite (analyzeSymbol_found _ _ _ _ Hdef).
    + apply analyzeSymbol_not_found.
  - intros e. destruct (findDefinition project name) as [def|] eqn:Hdef.
    + by rewrite (analyzeSymbol_found _ _ _ _ Hdef).
    + rewrite (analyzeSymbol_not_found _ _ _ Hdef). by intros [= <-].
  - intros (o & Ho & Hc).
    destruct (findDefinition project name) as [def|] eqn:Hdef;
      [|rewrite (proj1 Hnone eq_refl o Ho) in Hc; done].
    destruct (findDefinition_candidate _ _ _ Hdef) as [Hdin Hdc].
    assert (Hnot : forall o', o' ∈ referenceOccurrences project name include def ->
                              nodeId o' <> nodeId def).
    { intros o' (Ho' & _ & Hp)%referenceOccurrences_spec Hid.
      assert (o' = def) as -> by (by eapply nodeId_identifies).
      by rewrite definition_not_reference in Hp. }
    eexists def, _. split; [done|]. split; [by apply analyzeSymbol_found|].
    simpl. split; [|split; [done|split]].
    + destruct (firstPerKey _ _) as [|e es]; [done|].
      rewrite bool_decide_eq_true_2 by (simpl; lia). done.
    + intros e (o' & Ho' & <-)%reference_origin. eauto.
    + intros Hsites (o' & Ho' & Heq)%reference_origin.
      pose proof Ho' as (Hocc & _)%referenceOccurrences_spec.
      rewrite (Hsites o' Hocc Heq) in Ho'. by apply (Hnot def).
Qed.

(** *** Ambient files *)

(** C7.  The definition of a returned result lies in a file that is not
    an ambient [.d.ts] file; no occurrence of an ambient file is the
    definition node or a reference-producing occurrence; every returned
    reference is the site of a reference-producing occurrence outside
    ambient files; and the site of an occurrence of an ambient file is not
    in the list, where no occurrence of another file shares that site. *)
Theorem ambient_files_never_contribute project name include r :
  analyzeSymbol project name include = ok r ->
  exists def,
    findDefinition project name = Some def
    /\ def ∈ occurrences project name
    /\ definition r = definitionSite def
    /\ isDeclarationFile (sourcePath def) = false
    /\ (forall o, o ∈ occurrences project name ->
                  isDeclarationFile (sourcePath o) = true ->
                  o <> def /\ o ∉ referenceOccurrences project name include def)
    /\ (forall e, e ∈ references r ->
          exists o, o ∈ referenceOccurrences project name include def
                    /\ siteOf o = e
                    /\ isDeclarationFile (sourcePath o) = false)
    /\ (forall o, o ∈ occurrences project name ->
                  isDeclarationFile (sourcePath o) = true ->
                  (forall o', o' ∈ occurrences project name -> siteOf o' = siteOf o ->
                              sourcePath o' = sourcePath o) ->
                  siteOf o ∉ references r).
Proof.
  intros (def & Hdef & _ & Hsite & Hrefs & _)%analyzeSymbol_ok_inv.
  destruct (findDefinition_candidate _ _ _ Hdef) as [Hdin Hdc].
  destruct (candidate_parent _ Hdc) as [Hd _].
  assert (Hprod : forall o, producesReference def o = true ->
                            isDeclarationFile (sourcePath o) = false).
  { intros o. unfold producesReference.
    destruct (isDeclarationFile (sourcePath o)); [|done].
    by rewrite andb_false_r. }
  exists def. repeat split; try done.
  - intros ->. congruence.
  - intros (_ & _ & Hp)%referenceOccurrences_spec.
    apply Hprod in Hp. congruence.
  - rewrite Hrefs. intros e (o & Ho & <-)%reference_origin.
    exists o. repeat split; try done.
    apply referenceOccurrences_spec in Ho as (_ & _ & Hp). by apply Hprod.
  - intros o Ho Hamb Hsame. rewrite Hrefs.
    intros (o' & Ho' & Heq)%reference_origin.
    apply referenceOccurrences_spec in Ho' as (Hocc & _ & Hp).
    apply Hprod in Hp. rewrite (Hsame o' Hocc Heq) in Hp. congruence.
Qed.

(** *** The definition's context label *)

(** C10.  The context label of the definition in a returned result is
    the constant ["global scope"]. *)
Theorem definition_context_is_global_scope project name include r :
  analyzeSymbol project name include = ok r ->
  context (definition r) = "global scope".
Proof.
  intros (def & _ & _ & -> & _)%analyzeSymbol_ok_inv. done.
Qed.

Lemma reference_recorded project name include def r o :
  findDefinition project name = Some def ->
  analyzeSymbol project name include = ok r ->
  o ∈ referenceOccurrences project name include def ->
  refKey (siteOf o) ∈ map refKey (references r).
Proof.
  intros Hdef Hr Ho. rewrite (analyzeSymbol_found _ _ _ _ Hdef) in Hr.
  injection Hr as <-. simpl. apply firstPerKey_keys. split; [|set_solver].
  apply list_elem_of_fmap. exists (siteOf o). split; [done|].
  apply list_elem_of_fmap. eauto.
Qed.

(** *** Keys and entries *)

Lemma pretty_N_go_colonFree x : forall s,
  colonFree s = true -> colonFree (pretty_N_go x s) = true.
Proof.
  induction (N.lt_wf_0 x) as [x _ IH]; intros s Hs.
  assert (x = 0 \/ 0 < x)%N as [->|Hpos] by lia.
  - by rewrite pretty_N_go_0.
  - rewrite pretty_N_go_step by done. apply IH.
    + by apply N.div_lt.
    + simpl. rewrite Hs. unfold pretty_N_char. by repeat case_match.
Qed.

Lemma pretty_nat_colonFree (n : nat) : colonFree (pretty n) = true.
Proof.
  unfold pretty, pretty_nat, pretty, pretty_N.
  case_decide; [done|]. by apply pretty_N_go_colonFree.
Qed.

(** A string is cut at its first colon in one way only. *)
Lemma colon_split a : forall a' b b',
  colonFree a = true -> colonFree a' = true ->
  a +:+ ":" +:+ b = a' +:+ ":" +:+ b' -> a = a' /\ b = b'.
Proof.
  induction a as [|c a IH]; intros [|c' a'] b b'; simpl.
  - intros _ _ [= Hb]. by subst.
  - intros _ [Hc _]%andb_prop [= Hc' _]. by subst.
  - intros [Hc _]%andb_prop _ [= Hc' _]. by subst.
  - intros [_ Ha]%andb_prop [_ Ha']%andb_prop [= Hc Heq].
    destruct (IH a' b b' Ha Ha' Heq) as [Ha0 Hb0]. by subst.
Qed.

(** On sites whose paths hold no colon, the key determines the entry. *)
Lemma refKey_inj (s1 s2 : Site) :
  colonFree (filePath s1) = true -> colonFree (filePath s2) = true ->
  refKey s1 = refKey s2 -> s1 = s2.
Proof.
  destruct s1 as [f1 l1 c1 x1], s2 as [f2 l2 c2 x2]. unfold refKey. simpl.
  intros Hf1 Hf2 Hkey.
  apply colon_split in Hkey as [-> Hkey]; [|done..].
  apply colon_split in Hkey as [Hl Hkey]; [|apply pretty_nat_colonFree..].
  apply colon_split in Hkey as [Hc ->]; [|apply pretty_nat_colonFree..].
  apply (inj pretty) in Hl, Hc. by subst.
Qed.

Lemma occurrence_file project name o :
  o ∈ occurrences project name ->
  exists sf, sf ∈ project /\ sourcePath o = getFilePath sf.
Proof.
  intros (fi & sf & ni & n & Hsf & _ & _ & ->)%occurrences_spec.
  exists sf. split; [by eapply list_elem_of_lookup_2|done].
Qed.

Lemma referenceOccurrence_colonFree project name include def o :
  (forall sf, sf ∈ project -> colonFree (relative cwd (getFilePath sf)) = true) ->
  o ∈ referenceOccurrences project name include def ->
  colonFree (filePath (siteOf o)) = true.
Proof.
  intros Hpaths (Ho & _)%referenceOccurrences_spec.
  apply occurrence_file in Ho as (sf & Hsf & Hp). simpl. rewrite Hp. by apply Hpaths.
Qed.

(** With colon-free paths, the site of a reference-producing occurrence is
    itself in the list. *)
Lemma reference_site_recorded project name include def o :
  (forall sf, sf ∈ project -> colonFree (relative cwd (getFilePath sf)) = true) ->
  o ∈ referenceOccurrences project name include def ->
  siteOf o ∈ firstPerKey ∅ (map siteOf (referenceOccurrences project name include def)).
Proof.
  intros Hpaths Ho.
  assert (Hk : refKey (siteOf o)
               ∈ map refKey (firstPerKey ∅
                   (map siteOf (referenceOccurrences project name include def)))).
  { apply firstPerKey_keys. split; [|apply not_elem_of_empty].
    apply list_elem_of_fmap. exists (siteOf o). split; [done|].
    apply list_elem_of_fmap. eauto. }
  apply list_elem_of_fmap in Hk as (e & Hkey & He).
  pose proof He as (o' & Ho' & <-)%reference_origin.
  symmetry in Hkey.
  apply refKey_inj in Hkey; [by rewrite <- Hkey|by eapply referenceOccurrence_colonFree..].
Qed.

(** *** De-duplication of the reference list *)


(** *** Imports *)

Lemma existsb_eqb_elem (target : string) (l : list string) :
  existsb (fun p => String.eqb p target) l = true <-> target ∈ l.
Proof.
  rewrite existsb_exists. split.
  - intros (p & Hp & ->%String.eqb_eq). by apply list_elem_of_In.
  - intros Hin. exists target. split; [by apply list_elem_of_In|].
    apply String.eqb_refl.
Qed.

Lemma isForeignImport_specifier def o parent above importDecl :
  ancestors (node o) = parent :: above ->
  kind parent = ImportSpecifier ->
  firstByKind ImportDeclaration above = Some importDecl ->
  isForeignImport def o = false
  <-> JsString.startsWith (getModuleSpecifierValue importDecl) "." = true
      /\ sourcePath def
           ∈ possiblePaths (sourcePath o) (getModuleSpecifierValue importDecl).
Proof.
  intros Ha Hk Hd. unfold isForeignImport. rewrite Ha.
  unfold isKind at 1. rewrite bool_decide_eq_true_2 by done. rewrite Hd.
  destruct (JsString.startsWith _ ".").
  - rewrite negb_false_iff, existsb_eqb_elem. tauto.
  - split; [done|by intros [? _]].
Qed.

Lemma isDefinitionItself_other_parent def o parent above :
  ancestors (node o) = parent :: above ->
  kind parent ∉ [ClassDeclaration; InterfaceDeclaration; FunctionDeclaration;
                 MethodDeclaration; PropertyDeclaration; MethodSignature;
                 PropertyAccessExpression] ->
  isDefinitionItself def o = false.
Proof.
  intros Ha Hk. unfold isDefinitionItself, isKind. rewrite Ha.
  destruct (kind parent); try (exfalso; apply Hk; set_solver);
    simpl; by rewrite andb_false_r.
Qed.

(** Away from [new] expressions and member accesses, the binding test of
    lines 145-169 is the position test of line 151 alone. *)
Lemma isReferenceToDefinition_by_position def o parent above :
  ancestors (node o) = parent :: above ->
  kind parent <> NewExpression ->
  kind parent <> PropertyAccessExpression ->
  isReferenceToDefinition def o = true
  <-> exists d, Some d ∈ getDefinitions (node o)
                /\ declFilePath d = sourcePath def
                /\ declPos d = getPos (node def).
Proof.
  intros Ha Hnew Hpae.
  assert (Hres : forall d, resolvesTo def o d = true
                           <-> declFilePath d = sourcePath def
                               /\ declPos d = getPos (node def)).
  { intros d. unfold resolvesTo, getParent, isKind. rewrite Ha. simpl.
    rewrite (bool_decide_eq_false_2 _ Hnew), (bool_decide_eq_false_2 _ Hpae).
    simpl. by rewrite orb_false_r, andb_true_iff, String.eqb_eq, Nat.eqb_eq. }
  unfold isReferenceToDefinition. rewrite existsb_exists. split.
  - intros ([d|] & Hin & Hr); [|done].
    exists d. split; [by apply list_elem_of_In|by apply Hres].
  - intros (d & Hin & Hd). exists (Some d).
    split; [by apply list_elem_of_In|by apply Hres].
Qed.

(** The site of an occurrence that produces no reference is not in the
    list, where no other occurrence shares that site. *)
Lemma discarded_site_absent project name include def r o :
  findDefinition project name = Some def ->
  analyzeSymbol project name include = ok r ->
  o ∉ referenceOccurrences project name include def ->
  (forall o', o' ∈ occurrences project name -> siteOf o' = siteOf o -> o' = o) ->
  siteOf o ∉ references r.
Proof.
  intros Hdef Hr Hout Hunshared.
  rewrite (analyzeSymbol_found _ _ _ _ Hdef) in Hr. injection Hr as <-. simpl.
  intros (o' & Ho' & Heq)%reference_origin.
  pose proof Ho' as (Hocc & _)%referenceOccurrences_spec.
  by rewrite (Hunshared o' Hocc Heq) in Ho'.
Qed.

(** C6.  Take an occurrence of the name with an import declaration above
    it, not standing directly under a [new] expression or a member
    access.  For the name of an import specifier nothing more is asked.
    For any other name of the import statement (a default or namespace
    import) the tree is taken as the front end builds it: a declaration
    node of its binding that begins where the definition's identifier
    begins is a method or property declaration, the only declarations
    that begin with their name, and its binding holds no method or
    property declaration, since such an import binds to a declaration of
    module level or to the import itself.  Then the occurrence produces
    a reference exactly when it is the name of an import specifier, its
    file is scanned and not ambient, its binding resolves to the
    definition, the module specifier begins with a dot, and the
    definition's file is the resolved specifier plus [.ts], plus [.tsx],
    or [index.ts] or [index.tsx] joined under it; its key is then in the
    returned list.  An occurrence whose module specifier is relative with
    no candidate equal to the definition's file, or is not relative,
    produces no reference, and its site is not in the returned list
    where no other occurrence shares it. *)
Theorem import_occurrence_filtered project name include def r o parent above
    importDecl :
  findDefinition project name = Some def ->
  analyzeSymbol project name include = ok r ->
  o ∈ occurrences project name ->
  ancestors (node o) = parent :: above ->
  firstByKind ImportDeclaration (ancestors (node o)) = Some importDecl ->
  kind parent <> NewExpression ->
  kind parent <> PropertyAccessExpression ->
  (kind parent <> ImportSpecifier ->
   forall d, Some d ∈ getDefinitions (node o) ->
     (declFilePath d = sourcePath def -> declPos d = getPos (node def) ->
      declKind d = MethodDeclaration \/ declKind d = PropertyDeclaration)
     /\ declKind d <> MethodDeclaration /\ declKind d <> PropertyDeclaration) ->
  let importedModule := getModuleSpecifierValue importDecl in
  let resolvedPath := resolve (dirname (sourcePath o)) importedModule in
  let candidates := [resolvedPath +:+ ".ts"; resolvedPath +:+ ".tsx";
                     join resolvedPath "index.ts"; join resolvedPath "index.tsx"] in
  let accepted := o ∈ referenceOccurrences project name include def in
  let discarded :=
    (o ∉ referenceOccurrences project name include def)
    /\ ((forall o', o' ∈ occurrences project name -> siteOf o' = siteOf o -> o' = o) ->
        siteOf o ∉ references r) in
  (accepted <-> kind parent = ImportSpecifier
                /\ isScanned include def o = true
                /\ isReferenceToDefinition def o = true
                /\ isDeclarationFile (sourcePath o) = false
                /\ JsString.startsWith importedModule "." = true
                /\ sourcePath def ∈ candidates)
  /\ (accepted -> JsString.startsWith importedModule "." = true
                  /\ sourcePath def ∈ candidates
                  /\ refKey (siteOf o) ∈ map refKey (references r))
  /\ (JsString.startsWith importedModule "." = true ->
      sourcePath def ∉ candidates -> discarded)
  /\ (JsString.startsWith importedModule "." = false -> discarded).
Proof.
  intros Hdef Hr Ho Ha Himport Hnew Hpae Hfront.
  intros importedModule resolvedPath candidates accepted discarded.
  assert (Hiff : accepted <-> kind parent = ImportSpecifier
                /\ isScanned include def o = true
                /\ isReferenceToDefinition def o = true
                /\ isDeclarationFile (sourcePath o) = false
                /\ JsString.startsWith importedModule "." = true
                /\ sourcePath def ∈ candidates).
  { unfold accepted. rewrite referenceOccurrences_spec. unfold producesReference.
    destruct (decide (kind parent = ImportSpecifier)) as [Hk|Hk].
    - assert (Habove : firstByKind ImportDeclaration above = Some importDecl).
      { rewrite Ha in Himport. unfold firstByKind, isKind in *. simpl in Himport.
        by rewrite Hk, bool_decide_eq_false_2 in Himport. }
      rewrite (isDefinitionItself_other_parent def o parent above Ha)
        by (rewrite Hk; set_solver).
      rewrite !andb_true_iff, !negb_true_iff.
      rewrite (isForeignImport_specifier def o parent above importDecl Ha Hk Habove).
      fold importedModule. unfold possiblePaths. fold resolvedPath. fold candidates.
      tauto.
    - assert (Hno : isReferenceToDefinition def o = false).
      { apply not_true_is_false. intros Hres.
        apply (isReferenceToDefinition_by_position def o parent above Ha Hnew Hpae)
          in Hres as (d & Hin & Hfile & Hpos).
        destruct (Hfront Hk d Hin) as (Hposition & Hm & Hp).
        by destruct (Hposition Hfile Hpos). }
      rewrite Hno. simpl. split; [by intros (_ & _ & ?)|by intros (? & _)]. }
  assert (Hdiscarded : ~ accepted -> discarded).
  { intros Hout. split; [done|].
    by apply (discarded_site_absent project name include def). }
  split; [done|]. split; [|split].
  - intros Hin. pose proof (proj1 Hiff Hin) as (_ & _ & _ & _ & Hrel & Hcand).
    split; [done|]. split; [done|]. by eapply reference_recorded.
  - intros _ Hcand. apply Hdiscarded. intros Hin.
    by apply Hiff in Hin as (_ & _ & _ & _ & _ & ?).
  - intros Hrel. apply Hdiscarded. intros Hin.
    apply Hiff in Hin as (_ & _ & _ & _ & Hrel' & _). congruence.
Qed.

(** *** Declaration headers *)

(** An occurrence under a method or property signature is never the
    definition node, whose parent is a declaration: the definition-itself
    test of lines 182-196 lets it pass, its [MethodSignature] entry never
    fires, and the occurrence produces a reference whenever its file is
    scanned and not ambient and its binding resolves to the definition. *)
Lemma signature_occurrence_passes project name include def o parent above :
  findDefinition project name = Some def ->
  o ∈ occurrences project name ->
  ancestors (node o) = parent :: above ->
  kind parent = MethodSignature \/ kind parent = PropertySignature ->
  nodeId o <> nodeId def
  /\ isDefinitionItself def o = false
  /\ (o ∈ referenceOccurrences project name include def
      <-> isScanned include def o = true
          /\ isReferenceToDefinition def o = true
          /\ isDeclarationFile (sourcePath o) = false).
Proof.
  intros Hdef Ho Ha Hk.
  destruct (findDefinition_candidate _ _ _ Hdef) as [Hdin Hdc].
  assert (Hid : nodeId o <> nodeId def).
  { intros Heq. assert (o = def) as -> by (by eapply nodeId_identifies).
    destruct (candidate_parent _ Hdc) as (_ & p & a & Ha' & Hp).
    rewrite Ha in Ha'. injection Ha' as <- <-.
    unfold isDefinitionParent, isKind in Hp.
    destruct Hk as [Hk|Hk]; by rewrite Hk in Hp. }
  assert (Hself : isDefinitionItself def o = false).
  { unfold isDefinitionItself, isKind. rewrite Ha.
    rewrite (bool_decide_eq_false_2 _ Hid). simpl.
    destruct Hk as [Hk|Hk]; by rewrite Hk. }
  assert (Hforeign : isForeignImport def o = false).
  { unfold isForeignImport, isKind. rewrite Ha.
    destruct Hk as [Hk|Hk]; by rewrite Hk. }
  split; [done|]. split; [done|].
  rewrite referenceOccurrences_spec. unfold producesReference.
  rewrite Hself, Hforeign, !andb_true_iff, !negb_true_iff. tauto.
Qed.

(** *** The dead-symbol scan *)

Lemma forEach_app {A B} (body : A -> B -> Result A) (l1 l2 : list B) : forall st,
  forEach body st (l1 ++ l2)
  = let* st' := forEach body st l1 in forEach body st' l2.
Proof.
  induction l1 as [|x l1 IH]; intros st; simpl; [done|].
  destruct (body st x); simpl; [done|apply IH].
Qed.

Lemma forEach_map {A B C} (body : A -> C -> Result A) (g : B -> C) (l : list B) :
  forall st, forEach body st (map g l) = forEach (fun st x => body st (g x)) st l.
Proof.
  induction l as [|x l IH]; intros st; simpl; [done|].
  destruct (body st (g x)); simpl; [done|apply IH].
Qed.

Lemma checkClass_items project (classDecl : ClassNode) st :
  checkClass project st classDecl
  = forEach (checkItem project) st (memberItems classDecl).
Proof.
  unfold checkClass, memberItems. rewrite forEach_app, forEach_map.
  change (fun st0 x => checkItem project st0
                         (Some x, reportMember KMethod (className classDecl)))
    with (checkMember project KMethod (className classDecl)).
  destruct (forEach (checkMember project KMethod (className classDecl)) st
                    (getMethods classDecl)); simpl; [done|].
  by rewrite forEach_map.
Qed.

Lemma checkClasses_items project classes : forall st,
  forEach (checkClass project) st classes
  = forEach (checkItem project) st (concat (map memberItems classes)).
Proof.
  induction classes as [|c cs IH]; intros st; simpl; [done|].
  rewrite forEach_app, checkClass_items.
  destruct (forEach (checkItem project) st (memberItems c)); simpl; [done|apply IH].
Qed.

(** The three loops of [checkFile] are one pass over [scanOrder]. *)
Lemma checkFile_scanOrder project file :
  checkFile project file
  = let* sourceFile := getSourceFileOrThrow project file in
    let* st := forEach (checkItem project) emptyScanState (scanOrder sourceFile) in
    ok (unreferencedSymbols st).
Proof.
  unfold checkFile. destruct (getSourceFileOrThrow project file) as [e|sf]; [done|].
  simpl. unfold scanOrder. rewrite forEach_app, forEach_map.
  change (fun st x => checkItem project st (x.2, reportDeclaration x.1))
    with (checkDeclaration project).
  destruct (forEach (checkDeclaration project) emptyScanState (declarations sf));
    simpl; [done|].
  by rewrite checkClasses_items.
Qed.

Lemma scanOrder_names_itself sourceFile :
  Forall NamesItself (scanOrder sourceFile).
Proof.
  unfold scanOrder, memberItems. apply Forall_app. split.
  - apply Forall_forall. intros item (d & -> & _)%list_elem_of_fmap. by intros n r.
  - apply Forall_forall. intros item (items & Hitem & Hitems)%elem_of_concat.
    apply list_elem_of_fmap in Hitems as (c & -> & _).
    apply elem_of_app in Hitem as [Hitem|Hitem];
      apply list_elem_of_fmap in Hitem as (m & -> & _); by intros n r.
Qed.

Lemma firstItemNamed_app_Some name (visited more : list ScanItem) item :
  firstItemNamed name visited = Some item ->
  firstItemNamed name (visited ++ more) = Some item.
Proof. unfold firstItemNamed. rewrite find_app_first. by intros ->. Qed.

Lemma firstItemNamed_fresh name (visited : list ScanItem) item :
  (forall it, it ∈ visited -> fst it <> Some name) ->
  fst item = Some name ->
  firstItemNamed name (visited ++ [item]) = Some item.
Proof.
  intros Hfresh Hname. unfold firstItemNamed. rewrite find_app_first.
  assert (List.find (fun it => bool_decide (it.1 = Some name)) visited = None) as ->.
  { apply find_none_iff. intros it Hit. apply bool_decide_eq_false. by apply Hfresh. }
  simpl. by rewrite bool_decide_eq_true_2.
Qed.

Lemma ScanInv_unchanged project visited st item :
  ScanInv project visited st ->
  (forall n, fst item = Some n -> n = "" \/ n ∈ checkedSymbols st) ->
  ScanInv project (visited ++ [item]) st.
Proof.
  intros (Hchecked & Hnd & Hentries) Hitem. split; [|split; [done|]].
  - intros n. rewrite Hchecked. split.
    + intros [? (it & ? & ?)]. split; [done|]. exists it. split; [|done].
      apply elem_of_app. by left.
    + intros [Hn (it & Hit & Hname)]. split; [done|].
      apply elem_of_app in Hit as [Hit|Hit%list_elem_of_singleton]; [eauto|].
      subst it. destruct (Hitem n Hname) as [?|Hin]; [done|].
      by apply Hchecked in Hin as [_ ?].
  - intros e He. destruct (Hentries e He) as (Hin & it & r & Hfirst & ?).
    split; [done|]. exists it, r. split; [|done].
    by apply firstItemNamed_app_Some.
Qed.

Lemma checkItem_step project visited st st' item :
  NamesItself item ->
  ScanInv project visited st ->
  checkItem project st item = ok st' ->
  ScanInv project (visited ++ [item]) st'.
Proof.
  intros Hname Hinv. unfold checkItem, checkName.
  destruct item as [[n|] report]; simpl;
    [|intros [= <-]; apply ScanInv_unchanged; [done|by intros ? [=]]].
  destruct (negb (String.eqb n "")) eqn:Htruthy; simpl;
    [|intros [= <-]; apply ScanInv_unchanged; [done|];
      intros ? [= <-]; left;
      by apply negb_false_iff, String.eqb_eq in Htruthy].
  apply negb_true_iff, String.eqb_neq in Htruthy.
  case_bool_decide as Hin; simpl;
    [intros [= <-]; apply ScanInv_unchanged; [done|]; intros ? [= <-]; by right|].
  destruct (analyzeSymbol project n false) as [err|r] eqn:Hr; simpl; [done|].
  destruct Hinv as (Hchecked & Hnd & Hentries).
  assert (Hfresh : forall it, it ∈ visited -> fst it <> Some n).
  { intros it Hit Heq. apply Hin, Hchecked. eauto. }
  assert (Hchecked' : forall n', n' ∈ checkedSymbols st ∪ {[n]}
            <-> n' <> "" /\ exists it, it ∈ visited ++ [(Some n, report)]
                                       /\ fst it = Some n').
  { intros n'. rewrite elem_of_union, elem_of_singleton, Hchecked. split.
    - intros [[? (it & ? & ?)]| ->].
      + split; [done|]. exists it. split; [|done]. apply elem_of_app. by left.
      + split; [done|]. exists (Some n, report). split; [|done].
        apply elem_of_app. right. by apply list_elem_of_singleton.
    - intros [? (it & Hit & Heq)].
      apply elem_of_app in Hit as [Hit|Hit%list_elem_of_singleton]; [left; eauto|].
      subst it. simpl in Heq. right. congruence. }
  assert (Hold : forall e, e ∈ unreferencedSymbols st ->
            deadName e ∈ checkedSymbols st ∪ {[n]}
            /\ exists it r',
                 firstItemNamed (deadName e) (visited ++ [(Some n, report)]) = Some it
                 /\ analyzeSymbol project (deadName e) false = ok r'
                 /\ isReferenced r' = false
                 /\ e = snd it (deadName e) r').
  { intros e He. destruct (Hentries e He) as (? & it & r' & Hfirst & ?).
    split; [set_solver|]. exists it, r'. split; [|done].
    by apply firstItemNamed_app_Some. }
  pose proof (Hname n r) as Hn. simpl in Hn.
  destruct (isReferenced r) eqn:Href; simpl; intros [= <-]; simpl.
  - split; [done|]. split; [done|]. done.
  - split; [done|]. split.
    + simpl. rewrite List.map_app. simpl. apply NoDup_app. split; [done|]. split.
      * intros k Hk ->%list_elem_of_singleton.
        apply list_elem_of_fmap in Hk as (e & Heq & He).
        apply Hentries in He as [Hc _]. rewrite <- Heq, Hn in Hc. done.
      * apply NoDup_singleton.
    + simpl. intros e [He| ->%list_elem_of_singleton]%elem_of_app; [by apply Hold|].
      rewrite Hn. split; [set_solver|].
      exists (Some n, report), r. split; [by apply firstItemNamed_fresh|]. done.
Qed.

Lemma checkItems_inv project items : forall visited st st',
  Forall NamesItself items ->
  ScanInv project visited st ->
  forEach (checkItem project) st items = ok st' ->
  ScanInv project (visited ++ items) st'.
Proof.
  induction items as [|item items IH]; intros visited st st' Hnames Hinv; simpl.
  - intros [= <-]. by rewrite app_nil_r.
  - apply Forall_cons in Hnames as [Hname Hnames].
    destruct (checkItem project st item) as [err|st1] eqn:Hstep; simpl; [done|].
    intros Hrest. rewrite (cons_middle item), app_assoc.
    apply (IH _ st1); [done| |done]. by eapply checkItem_step.
Qed.

(** C9.  The entries of a successful scan carry pairwise distinct
    names, and each entry is the report of the first item of the scan
    order (top-level functions, classes, interfaces, variables, then
    each class's methods and properties) that carries its name, for an
    analysis of that name that found no reference. *)
Theorem checkFile_each_name_once project file entries :
  checkFile project file = ok entries ->
  exists sourceFile,
    getSourceFileOrThrow project file = ok sourceFile
    /\ NoDup (map deadName entries)
    /\ (forall e, e ∈ entries ->
          exists item r,
            firstItemNamed (deadName e) (scanOrder sourceFile) = Some item
            /\ analyzeSymbol project (deadName e) false = ok r
            /\ isReferenced r = false
            /\ e = snd item (deadName e) r).
Proof.
  rewrite checkFile_scanOrder.
  destruct (getSourceFileOrThrow project file) as [err|sf]; simpl; [done|].
  destruct (forEach (checkItem project) emptyScanState (scanOrder sf))
    as [err|st] eqn:Hscan; simpl; [done|].
  intros [= <-]. exists sf. split; [done|].
  assert (Hinv : ScanInv project ([] ++ scanOrder sf) st).
  { eapply checkItems_inv; [apply scanOrder_names_itself| |done].
    split; [|split; [constructor|by intros e ?%elem_of_nil]].
    intros n. split; [by intros ?%not_elem_of_empty|].
    by intros [_ (it & ?%elem_of_nil & _)]. }
  destruct Hinv as (_ & Hnd & Hentries). split; [done|].
  intros e He. by destruct (Hentries e He) as [_ ?].
Qed.
(** A name the scan has already checked is passed over without being
    analysed again. *)
Lemma checkName_repeat project report st name :
  name ∈ checkedSymbols st -> checkName project report st (Some name) = ok st.
Proof.
  intros Hin. unfold checkName.
  rewrite (bool_decide_eq_true_2 _ Hin). simpl. by rewrite andb_false_r.
Qed.

(** A scan whose first item names a symbol that has no accepted
    declaration stops there with [SymbolNotFound]. *)
Lemma checkFile_first_name_unlocated project file sourceFile name report rest :
  getSourceFileOrThrow project file = ok sourceFile ->
  scanOrder sourceFile = (Some name, report) :: rest ->
  name <> "" ->
  findDefinition project name = None ->
  checkFile project file = throw (SymbolNotFound name).
Proof.
  intros Hfile Hscan Hname Hdef. rewrite checkFile_scanOrder, Hfile. simpl.
  rewrite Hscan. simpl. unfold checkItem, checkName. simpl.
  apply String.eqb_neq in Hname. rewrite Hname. simpl.
  by rewrite (analyzeSymbol_not_found _ _ _ Hdef).
Qed.

(** An identifier under a variable declaration is never accepted as a
    definition. *)
Lemma variable_parent_not_accepted o parent above :
  ancestors (node o) = parent :: above ->
  kind parent = VariableDeclaration ->
  isDefinitionCandidate o = false.
Proof.
  intros Ha Hk. unfold isDefinitionCandidate, acceptsAsDefinition, getParent.
  rewrite Ha. simpl. unfold isDefinitionParent, isKind. rewrite Hk. simpl.
  by rewrite andb_false_r.
Qed.

End Proofs.

(** ** Further properties of the checker *)

Section Coverage.

Context {path : PathApi} {front : ProjectApi}.

(** *** The structural fallback *)

Lemma isReferenceToDefinition_fallback def o parent above d :
  ancestors (node o) = parent :: above ->
  Some d ∈ getDefinitions (node o) ->
  (kind parent = NewExpression /\ declKind d = ClassDeclaration)
  \/ (kind parent = PropertyAccessExpression /\ declKind d = MethodDeclaration) ->
  isReferenceToDefinition def o = true.
Proof.
  intros Ha Hd Hshape. unfold isReferenceToDefinition.
  apply existsb_exists. exists (Some d). split; [by apply list_elem_of_In|].
  unfold resolvesTo, getParent, isKind. rewrite Ha. simpl.
  destruct Hshape as [[-> ->]|[-> ->]]; simpl; by rewrite orb_true_r.
Qed.

(** X1.  An occurrence under a [new] expression whose binding holds a
    class declaration, or under a member access whose binding holds a
    method declaration (the access not standing directly under a method
    declaration), produces a reference to the located definition
    whenever its file is scanned and not ambient, whatever declaration
    the binding names: the result is flagged as referenced and holds the
    occurrence's key. *)
Theorem structural_fallback_counts project name include def o parent above d :
  findDefinition project name = Some def ->
  o ∈ occurrences project name ->
  isScanned include def o = true ->
  isDeclarationFile (sourcePath o) = false ->
  ancestors (node o) = parent :: above ->
  Some d ∈ getDefinitions (node o) ->
  (kind parent = NewExpression /\ declKind d = ClassDeclaration)
  \/ (kind parent = PropertyAccessExpression /\ declKind d = MethodDeclaration
      /\ fmap kind (head above) <> Some MethodDeclaration) ->
  o ∈ referenceOccurrences project name include def
  /\ exists r, analyzeSymbol project name include = ok r
               /\ isReferenced r = true
               /\ refKey (siteOf o) ∈ map refKey (references r).
Proof.
  intros Hdef Ho Hscan Hamb Ha Hd Hshape.
  assert (Hin : o ∈ referenceOccurrences project name include def).
  { apply referenceOccurrences_spec. split; [done|]. split; [done|].
    unfold producesReference. rewrite Hamb.
    rewrite (isReferenceToDefinition_fallback def o parent above d Ha Hd)
      by (destruct Hshape as [?|(? & ? & _)]; [by left|by right]).
    assert (isDefinitionItself def o = false) as ->.
    { unfold isDefinitionItself, isKind. rewrite Ha.
      destruct Hshape as [[-> _]|(-> & _ & Hg)]; simpl.
      - by rewrite andb_false_r.
      - rewrite andb_false_r. simpl. destruct (head above) as [g|]; [|done].
        apply bool_decide_eq_false. intros Hk. apply Hg. simpl. by rewrite Hk. }
    assert (isForeignImport def o = false) as ->; [|done].
    unfold isForeignImport, isKind. rewrite Ha.
    by destruct Hshape as [[-> _]|(-> & _ & _)]. }
  split; [done|].
  eexists. split; [by apply analyzeSymbol_found|]. simpl.
  assert (Hk : refKey (siteOf o)
               ∈ map refKey (firstPerKey ∅
                   (map siteOf (referenceOccurrences project name include def)))).
  { apply firstPerKey_keys. split; [|apply not_elem_of_empty].
    apply list_elem_of_fmap. exists (siteOf o). split; [done|].
    apply list_elem_of_fmap. eauto. }
  split; [|done].
  destruct (firstPerKey _ _); [by apply elem_of_nil in Hk|].
  apply bool_decide_eq_true. simpl. lia.
Qed.


(** *** Definitions that begin with a keyword *)

(** Where no declaration node of the binding begins at the definition's
    identifier, the binding test of lines 145-169 is the fallback of
    lines 157-168 alone. *)
Lemma isReferenceToDefinition_fallback_only def o :
  (forall d, Some d ∈ getDefinitions (node o) ->
             ~ (declFilePath d = sourcePath def /\ declPos d = getPos (node def))) ->
  isReferenceToDefinition def o = true
  <-> exists parent above d,
        ancestors (node o) = parent :: above
        /\ Some d ∈ getDefinitions (node o)
        /\ ((kind parent = NewExpression /\ declKind d = ClassDeclaration)
            \/ (kind parent = PropertyAccessExpression
                /\ declKind d = MethodDeclaration)).
Proof.
  intros Hnot. split.
  - unfold isReferenceToDefinition. rewrite existsb_exists.
    intros ([d|] & Hin%list_elem_of_In & Hres); [|done].
    unfold resolvesTo, getParent in Hres.
    assert (Hpos : String.eqb (declFilePath d) (sourcePath def)
                   && Nat.eqb (declPos d) (getPos (node def)) = false).
    { apply not_true_is_false. rewrite andb_true_iff, String.eqb_eq, Nat.eqb_eq.
      by apply Hnot. }
    rewrite Hpos in Hres. simpl in Hres.
    destruct (ancestors (node o)) as [|parent above]; [done|]. simpl in Hres.
    exists parent, above, d. split; [done|]. split; [done|].
    unfold isKind in Hres.
    apply orb_prop in Hres as [Hres|Hres]; apply andb_prop in Hres as [Hk Hd];
      apply bool_decide_eq_true in Hk, Hd; [by left|by right].
  - intros (parent & above & d & Ha & Hin & Hshape).
    apply (isReferenceToDefinition_fallback def o parent above d Ha Hin Hshape).
Qed.

(** X11.  Take a definition at whose identifier no declaration node of
    any binding of the name begins, as it is on a parsed tree when the
    definition is a class, interface or function declaration: such a
    declaration begins at its keyword or modifier, before its name, and
    line 151 compares the two positions.  Then the reference-producing
    occurrences are exactly those of scanned, non-ambient files that
    stand under a [new] expression with a class declaration in their
    binding, or under a member access (not directly under a method
    declaration) with a method declaration in their binding; every
    returned reference is the site of one of them, so calls, type
    references, heritage clauses and imports of the name are never
    returned. *)
Theorem references_by_fallback_only project name include def r :
  findDefinition project name = Some def ->
  analyzeSymbol project name include = ok r ->
  (forall o d, o ∈ occurrences project name ->
               Some d ∈ getDefinitions (node o) ->
               ~ (declFilePath d = sourcePath def /\ declPos d = getPos (node def))) ->
  (forall o, o ∈ referenceOccurrences project name include def
     <-> o ∈ occurrences project name
         /\ isScanned include def o = true
         /\ isDeclarationFile (sourcePath o) = false
         /\ exists parent above d,
              ancestors (node o) = parent :: above
              /\ Some d ∈ getDefinitions (node o)
              /\ ((kind parent = NewExpression /\ declKind d = ClassDeclaration)
                  \/ (kind parent = PropertyAccessExpression
                      /\ declKind d = MethodDeclaration
                      /\ fmap kind (head above) <> Some MethodDeclaration)))
  /\ (forall e, e ∈ references r ->
        exists o parent, o ∈ referenceOccurrences project name include def
                         /\ siteOf o = e
                         /\ getParent (node o) = Some parent
                         /\ (kind parent = NewExpression
                             \/ kind parent = PropertyAccessExpression)).
Proof.
  intros Hdef Hr Hnot.
  assert (Hiff : forall o, o ∈ referenceOccurrences project name include def
     <-> o ∈ occurrences project name
         /\ isScanned include def o = true
         /\ isDeclarationFile (sourcePath o) = false
         /\ exists parent above d,
              ancestors (node o) = parent :: above
              /\ Some d ∈ getDefinitions (node o)
              /\ ((kind parent = NewExpression /\ declKind d = ClassDeclaration)
                  \/ (kind parent = PropertyAccessExpression
                      /\ declKind d = MethodDeclaration
                      /\ fmap kind (head above) <> Some MethodDeclaration))).
  { intros o. rewrite referenceOccurrences_spec. split.
    - intros (Ho & Hscan & Hp). unfold producesReference in Hp.
      apply andb_prop in Hp as [Hp Hforeign]. apply andb_prop in Hp as [Hp Hself].
      apply andb_prop in Hp as [Hres Hamb].
      apply negb_true_iff in Hamb, Hself.
      apply (isReferenceToDefinition_fallback_only def o (fun d => Hnot o d Ho))
        in Hres as (parent & above & d & Ha & Hin & Hshape).
      split; [done|]. split; [done|]. split; [done|].
      exists parent, above, d. split; [done|]. split; [done|].
      destruct Hshape as [?|[Hk Hd]]; [by left|right].
      split; [done|]. split; [done|]. intros Hg.
      unfold isDefinitionItself in Hself. rewrite Ha in Hself.
      apply orb_false_elim in Hself as [_ Hself].
      unfold isKind in Hself. rewrite Hk in Hself.
      destruct (head above) as [g|]; [|done]. injection Hg as Hg.
      rewrite Hg in Hself. done.
    - intros (Ho & Hscan & Hamb & parent & above & d & Ha & Hin & Hshape).
      split; [done|]. split; [done|]. unfold producesReference. rewrite Hamb.
      rewrite (isReferenceToDefinition_fallback def o parent above d Ha Hin)
        by (destruct Hshape as [?|(? & ? & _)]; [by left|by right]).
      assert (isDefinitionItself def o = false) as ->.
      { unfold isDefinitionItself, isKind. rewrite Ha.
        destruct Hshape as [[-> _]|(-> & _ & Hg)]; simpl.
        - by rewrite andb_false_r.
        - rewrite andb_false_r. simpl. destruct (head above) as [g|]; [|done].
          apply bool_decide_eq_false. intros Hk. apply Hg. simpl. by rewrite Hk. }
      assert (isForeignImport def o = false) as ->; [|done].
      unfold isForeignImport, isKind. rewrite Ha.
      by destruct Hshape as [[-> _]|(-> & _ & _)]. }
  split; [done|].
  rewrite (analyzeSymbol_found _ _ _ _ Hdef) in Hr. injection Hr as <-. simpl.
  intros e (o & Ho & <-)%reference_origin.
  pose proof (proj1 (Hiff o) Ho) as (_ & _ & _ & parent & above & d & Ha & _ & Hshape).
  exists o, parent. split; [done|]. split; [done|].
  split; [unfold getParent; by rewrite Ha|].
  destruct Hshape as [[? _]|[? _]]; [by left|by right].
Qed.


(** *** The option *)

Lemma filter_sublist_implies {A} (f g : A -> bool) (l : list A) :
  (forall x, f x = true -> g x = true) ->
  List.filter f l `sublist_of` List.filter g l.
Proof.
  intros Himp. induction l as [|x l IH]; simpl; [constructor|].
  destruct (f x) eqn:Hf.
  - rewrite (Himp x Hf). by apply sublist_skip.
  - destruct (g x); [by apply sublist_cons|done].
Qed.

Lemma isReferenced_true_iff project name include def :
  bool_decide (0 < length (firstPerKey ∅
                 (map siteOf (referenceOccurrences project name include def)))) = true
  <-> exists o, o ∈ referenceOccurrences project name include def.
Proof.
  rewrite bool_decide_eq_true. split.
  - destruct (firstPerKey _ _) as [|e es] eqn:He; [simpl; lia|]. intros _.
    assert (Hin : e ∈ firstPerKey ∅
              (map siteOf (referenceOccurrences project name include def)))
      by (rewrite He; left).
    apply reference_origin in Hin as (o & Ho & _). eauto.
  - intros (o & Ho).
    assert (Hk : refKey (siteOf o)
                 ∈ map refKey (firstPerKey ∅
                     (map siteOf (referenceOccurrences project name include def)))).
    { apply firstPerKey_keys. split; [|apply not_elem_of_empty].
      apply list_elem_of_fmap. exists (siteOf o). split; [done|].
      apply list_elem_of_fmap. eauto. }
    destruct (firstPerKey _ _); [by apply elem_of_nil in Hk|simpl; lia].
Qed.

(** X2.  Including internal references changes neither the outcome, the
    symbol, the kind nor the definition; it only adds: the
    reference-producing occurrences of the default analysis are a
    subsequence of those of the inclusive one, every key returned by
    default is returned inclusively, a true flag stays true, and what the
    inclusive analysis adds lies in the declaring file. *)
Theorem option_only_adds_references project name r :
  analyzeSymbol project name false = ok r ->
  exists def r',
    findDefinition project name = Some def
    /\ analyzeSymbol project name true = ok r'
    /\ symbol r' = symbol r /\ type r' = type r /\ definition r' = definition r
    /\ referenceOccurrences project name false def
         `sublist_of` referenceOccurrences project name true def
    /\ (forall k, k ∈ map refKey (references r) -> k ∈ map refKey (references r'))
    /\ (isReferenced r = true -> isReferenced r' = true)
    /\ (forall o, o ∈ referenceOccurrences project name true def ->
                  o ∈ referenceOccurrences project name false def
                  \/ sourcePath o = sourcePath def).
Proof.
  intros Hr.
  destruct (findDefinition project name) as [def|] eqn:Hdef;
    [|by rewrite (analyzeSymbol_not_found _ _ _ Hdef) in Hr].
  rewrite (analyzeSymbol_found _ _ _ _ Hdef) in Hr. injection Hr as <-.
  exists def. eexists. split; [done|].
  split; [by apply analyzeSymbol_found|]. simpl.
  assert (Hsub : referenceOccurrences project name false def
                   `sublist_of` referenceOccurrences project name true def).
  { apply filter_sublist_implies. intros o [_ Hp]%andb_prop.
    unfold isScanned. simpl. by rewrite andb_false_r, Hp. }
  repeat split; try done.
  - intros k [Hk _]%firstPerKey_keys. apply firstPerKey_keys.
    split; [|apply not_elem_of_empty].
    apply list_elem_of_fmap in Hk as (s & -> & Hs).
    apply list_elem_of_fmap in Hs as (o & -> & Ho).
    apply list_elem_of_fmap. exists (siteOf o). split; [done|].
    apply list_elem_of_fmap. exists o. split; [done|].
    by eapply elem_of_sublist.
  - rewrite !isReferenced_true_iff. intros (o & Ho). exists o.
    by eapply elem_of_sublist.
  - intros o (Ho & _ & Hp)%referenceOccurrences_spec.
    destruct (String.eqb (sourcePath o) (sourcePath def)) eqn:Hfile.
    + right. by apply String.eqb_eq.
    + left. apply referenceOccurrences_spec. repeat split; try done.
      unfold isScanned. by rewrite Hfile.
Qed.

(** *** The declaring file under the default option *)

(** X3.  Under the default option no reference-producing occurrence lies
    in the file of the definition, every returned reference is the site
    of an occurrence of another file, and the flag is true exactly when
    some occurrence of another file passes the filters of the loop. *)
Theorem default_skips_declaring_file project name r :
  analyzeSymbol project name false = ok r ->
  exists def,
    findDefinition project name = Some def
    /\ (forall o, o ∈ referenceOccurrences project name false def ->
                  sourcePath o <> sourcePath def)
    /\ (forall e, e ∈ references r ->
          exists o, o ∈ occurrences project name
                    /\ siteOf o = e
                    /\ sourcePath o <> sourcePath def
                    /\ producesReference def o = true)
    /\ (isReferenced r = true
        <-> exists o, o ∈ occurrences project name
                      /\ sourcePath o <> sourcePath def
                      /\ producesReference def o = true).
Proof.
  intros (def & Hdef & _ & _ & Hrefs & Hflag)%analyzeSymbol_ok_inv.
  exists def. split; [done|].
  assert (Hspec : forall o, o ∈ referenceOccurrences project name false def
            <-> o ∈ occurrences project name
                /\ sourcePath o <> sourcePath def
                /\ producesReference def o = true).
  { intros o. rewrite referenceOccurrences_spec. unfold isScanned.
    rewrite andb_true_r, negb_true_iff. by rewrite String.eqb_neq. }
  split; [intros o Ho; by apply Hspec in Ho as (_ & ? & _)|]. split.
  - rewrite Hrefs. intros e (o & Ho & <-)%reference_origin.
    apply Hspec in Ho as (? & ? & ?). eauto.
  - rewrite Hflag, Hrefs, isReferenced_true_iff.
    split; intros (o & Ho); exists o; by apply Hspec.
Qed.


(** *** Files added at the end of the project *)





(** *** The outcome of a scan *)

#[local] Arguments truthyNames : simpl never.

Lemma truthyNames_cons {A} (item : option string * A) items n :
  n ∈ truthyNames (item :: items)
  <-> (fst item = Some n /\ n <> "") \/ n ∈ truthyNames items.
Proof.
  unfold truthyNames. cbn [omap list_omap]. destruct item as [[m|] a]; cbn [fst].
  - destruct (String.eqb m "") eqn:Hm.
    + apply String.eqb_eq in Hm. split; [by right|].
      intros [[[= ->] ?]|?]; done.
    + apply String.eqb_neq in Hm. rewrite elem_of_cons. split.
      * intros [->|?]; [by left|by right].
      * intros [[[= ->] _]|?]; [by left|by right].
  - split; [by right|]. by intros [[? _]|?].
Qed.

(** One turn on a fresh truthy name is the analysis of that name. *)
Lemma checkItem_fresh project st n report :
  n <> "" -> n ∉ checkedSymbols st ->
  checkItem project st (Some n, report)
  = let* result := analyzeSymbol project n false in
    if negb (isReferenced result) then
      ok {| unreferencedSymbols := unreferencedSymbols st ++ [report n result];
            checkedSymbols := checkedSymbols st ∪ {[n]} |}
    else
      ok {| unreferencedSymbols := unreferencedSymbols st;
            checkedSymbols := checkedSymbols st ∪ {[n]} |}.
Proof.
  intros Hn Hfresh. unfold checkItem, checkName. simpl.
  apply String.eqb_neq in Hn. rewrite Hn. simpl.
  by rewrite (bool_decide_eq_false_2 _ Hfresh).
Qed.

(** Every other turn leaves the state as it was. *)
Lemma checkItem_skip project st item :
  (forall n, fst item = Some n -> n = "" \/ n ∈ checkedSymbols st) ->
  checkItem project st item = ok st.
Proof.
  intros Hskip. unfold checkItem, checkName. destruct item as [[n|] report]; [|done].
  simpl. destruct (Hskip n eq_refl) as [->|Hin]; [done|].
  rewrite (bool_decide_eq_true_2 _ Hin). simpl. by rewrite andb_false_r.
Qed.

Lemma checkItem_cases project st item :
  (checkItem project st item = ok st
   /\ forall n, fst item = Some n -> n = "" \/ n ∈ checkedSymbols st)
  \/ (exists n report, item = (Some n, report) /\ n <> "" /\ n ∉ checkedSymbols st).
Proof.
  destruct item as [[n|] report].
  - destruct (decide (n = "")) as [->|Hn].
    + left. split; [apply checkItem_skip|]; intros ? [= <-]; by left.
    + destruct (decide (n ∈ checkedSymbols st)) as [Hin|Hfresh].
      * left. split; [apply checkItem_skip|]; intros ? [= <-]; by right.
      * right. eauto.
  - left. split; [by apply checkItem_skip|]. by intros ? [=].
Qed.

Lemma checkItems_throw project items : forall st e,
  forEach (checkItem project) st items = throw e ->
  exists n, n ∈ truthyNames items
            /\ findDefinition project n = None
            /\ e = SymbolNotFound n.
Proof.
  induction items as [|item items IH]; intros st e; simpl; [done|].
  destruct (checkItem_cases project st item)
    as [[-> _]|(n & report & -> & Hn & Hfresh)]; simpl.
  - intros (n & ? & ?)%IH. exists n. split; [|done].
    apply truthyNames_cons. by right.
  - rewrite (checkItem_fresh _ _ _ _ Hn Hfresh).
    destruct (findDefinition project n) as [def|] eqn:Hdef.
    + rewrite (analyzeSymbol_found _ _ _ _ Hdef). simpl.
      destruct (negb _); simpl; intros (m & ? & ?)%IH; exists m;
        (split; [apply truthyNames_cons; by right|done]).
    + rewrite (analyzeSymbol_not_found _ _ _ Hdef). simpl. intros [= <-].
      exists n. split; [|done]. apply truthyNames_cons. by left.
Qed.

Lemma checkItems_ok project items : forall st,
  (forall n, n ∈ truthyNames items -> findDefinition project n <> None) ->
  exists st', forEach (checkItem project) st items = ok st'.
Proof.
  induction items as [|item items IH]; intros st Hall; simpl; [by eexists|].
  assert (Hrest : forall n, n ∈ truthyNames items -> findDefinition project n <> None)
    by (intros n Hn; apply Hall, truthyNames_cons; by right).
  destruct (checkItem_cases project st item)
    as [[-> _]|(n & report & -> & Hn & Hfresh)]; simpl; [by apply IH|].
  rewrite (checkItem_fresh _ _ _ _ Hn Hfresh).
  destruct (findDefinition project n) as [def|] eqn:Hdef.
  - rewrite (analyzeSymbol_found _ _ _ _ Hdef). simpl.
    destruct (negb _); simpl; by apply IH.
  - exfalso. apply (Hall n); [|done]. apply truthyNames_cons. by left.
Qed.

Lemma checkItems_located project items : forall st st',
  forEach (checkItem project) st items = ok st' ->
  forall n, n ∈ truthyNames items ->
            n ∈ checkedSymbols st \/ findDefinition project n <> None.
Proof.
  induction items as [|item items IH]; intros st st'; simpl.
  - intros _ n Hn. unfold truthyNames in Hn. simpl in Hn. by apply elem_of_nil in Hn.
  - destruct (checkItem_cases project st item)
      as [[-> Hskip]|(m & report & -> & Hm & Hfresh)]; simpl.
    + intros Hrest n [[Hname Hn]|Hin]%truthyNames_cons; [|by eapply IH].
      destruct (Hskip n Hname) as [?|?]; [done|by left].
    + rewrite (checkItem_fresh _ _ _ _ Hm Hfresh).
      destruct (findDefinition project m) as [def|] eqn:Hdef;
        [|by rewrite (analyzeSymbol_not_found _ _ _ Hdef)].
      rewrite (analyzeSymbol_found _ _ _ _ Hdef). simpl.
      assert (Hstep : forall st1, checkedSymbols st1 = checkedSymbols st ∪ {[m]} ->
                forEach (checkItem project) st1 items = ok st' ->
                forall n, n ∈ truthyNames ((Some m, report) :: items) ->
                          n ∈ checkedSymbols st \/ findDefinition project n <> None).
      { intros st1 Hc Hrest n [[[= <-] _]|Hin]%truthyNames_cons;
          [right; by rewrite Hdef|].
        destruct (IH _ _ Hrest n Hin) as [Hin1|?]; [|by right].
        rewrite Hc in Hin1. apply elem_of_union in Hin1 as [?|Heq%elem_of_singleton];
          [by left|right; subst n; by rewrite Hdef]. }
      destruct (negb _); simpl; intros Hrest; (eapply Hstep; [|exact Hrest]; done).
Qed.

Lemma getSourceFileOrThrow_cases project file :
  (getSourceFileOrThrow project file = throw (FileNotInWorkspace file)
   /\ getSourceFile project file = None)
  \/ (exists sf, getSourceFileOrThrow project file = ok sf
                 /\ getSourceFile project file = Some sf).
Proof.
  unfold getSourceFileOrThrow.
  destruct (getSourceFile project file) as [sf|]; [right; by exists sf|by left].
Qed.

(** X5.  [checkFile] throws [FileNotInWorkspace] exactly when the front
    end's lookup finds no file for the argument: the scan itself never
    throws it.  Any other failure is the [SymbolNotFound] of a truthy
    name declared in the file that was found, for which the project
    holds no accepted declaration; and on a file that was found the scan
    succeeds exactly when every truthy name it declares has one. *)
Theorem checkFile_outcome project file :
  (checkFile project file = throw (FileNotInWorkspace file)
   <-> getSourceFile project file = None)
  /\ (forall e, checkFile project file = throw e ->
        (e = FileNotInWorkspace file /\ getSourceFile project file = None)
        \/ exists sf n, getSourceFile project file = Some sf
                        /\ n ∈ truthyNames (scanOrder sf)
                        /\ findDefinition project n = None
                        /\ e = SymbolNotFound n)
  /\ (forall sf, getSourceFile project file = Some sf ->
        (exists entries, checkFile project file = ok entries)
        <-> forall n, n ∈ truthyNames (scanOrder sf) ->
                      findDefinition project n <> None).
Proof.
  rewrite checkFile_scanOrder.
  destruct (getSourceFileOrThrow_cases project file)
    as [[-> Hnone]|(sf & -> & Hsome)]; simpl.
  - split; [done|]. split; [intros e [= <-]; by left|].
    intros sf Hsf. congruence.
  - destruct (forEach (checkItem project) emptyScanState (scanOrder sf))
      as [err|st] eqn:Hscan; simpl.
    + apply checkItems_throw in Hscan as (n & Hn & Hdef & ->).
      split; [|split].
      * split; [done|]. intros Hno. congruence.
      * intros e [= <-]. right. eauto 6.
      * intros sf' Hsf'. assert (sf' = sf) as -> by congruence.
        split; [by intros [? ?]|]. intros Hall. by destruct (Hall n Hn).
    + split; [|split].
      * split; [done|]. intros Hno. congruence.
      * done.
      * intros sf' Hsf'. assert (sf' = sf) as -> by congruence.
        split; [|by eauto]. intros _ n Hn.
        destruct (checkItems_located _ _ _ _ Hscan n Hn) as [Hc|?]; [|done].
        by apply not_elem_of_empty in Hc.
Qed.


(** *** What a successful scan reports *)

Lemma truthyNames_fresh {A} n (a : A) items :
  n <> "" -> truthyNames ((Some n, a) :: items) = n :: truthyNames items.
Proof.
  intros Hn. unfold truthyNames. cbn [omap list_omap fst].
  apply String.eqb_neq in Hn. by rewrite Hn.
Qed.

Lemma truthyNames_tail {A} (item : option string * A) items :
  truthyNames items `sublist_of` truthyNames (item :: items).
Proof.
  unfold truthyNames. cbn [omap list_omap].
  destruct (match item.1 with Some n => _ | None => _ end); [by apply sublist_cons|done].
Qed.

Lemma ScanVerdicts_step project st n report r :
  (forall m r', deadName (report m r') = m) ->
  n ∉ checkedSymbols st ->
  analyzeSymbol project n false = ok r ->
  ScanVerdicts project st ->
  ScanVerdicts project
    (if negb (isReferenced r) then
       {| unreferencedSymbols := unreferencedSymbols st ++ [report n r];
          checkedSymbols := checkedSymbols st ∪ {[n]} |}
     else
       {| unreferencedSymbols := unreferencedSymbols st;
          checkedSymbols := checkedSymbols st ∪ {[n]} |}).
Proof.
  intros Hname Hfresh Hr [Hin Hverdict].
  assert (Hnot : n ∉ map deadName (unreferencedSymbols st)).
  { intros (e & -> & He)%list_elem_of_fmap. by apply Hfresh, Hin. }
  destruct (isReferenced r) eqn:Href; simpl; split; simpl.
  - intros e He. apply elem_of_union. left. by apply Hin.
  - intros m [Hm| ->%elem_of_singleton]%elem_of_union.
    + by apply Hverdict.
    + exists r. split; [done|]. rewrite Href. by split.
  - intros e [He| ->%list_elem_of_singleton]%elem_of_app; apply elem_of_union.
    + left. by apply Hin.
    + right. rewrite Hname. by apply elem_of_singleton.
  - intros m [Hm| ->%elem_of_singleton]%elem_of_union.
    + destruct (Hverdict m Hm) as (r' & Hr' & Hiff). exists r'. split; [done|].
      rewrite <- Hiff, List.map_app, elem_of_app. simpl. rewrite Hname.
      split; [|by left]. intros [?|Heq%list_elem_of_singleton]; [done|].
      subst m. done.
    + exists r. split; [done|]. rewrite Href. split; [done|]. intros _.
      rewrite List.map_app, elem_of_app. right. simpl. rewrite Hname. left.
Qed.

Lemma checkItems_verdicts project items : forall st st',
  Forall NamesItself items ->
  ScanVerdicts project st ->
  forEach (checkItem project) st items = ok st' ->
  ScanVerdicts project st'
  /\ (forall n, n ∈ checkedSymbols st -> n ∈ checkedSymbols st')
  /\ (forall n, n ∈ truthyNames items -> n ∈ checkedSymbols st')
  /\ exists new,
       map deadName (unreferencedSymbols st')
       = map deadName (unreferencedSymbols st) ++ new
       /\ new `sublist_of` truthyNames items.
Proof.
  induction items as [|item items IH]; intros st st' Hnames Hinv; simpl.
  - intros [= <-]. split; [done|]. split; [done|]. split.
    + intros n Hn. unfold truthyNames in Hn. by apply elem_of_nil in Hn.
    + exists []. by rewrite app_nil_r.
  - apply Forall_cons in Hnames as [Hname Hnames].
    destruct (checkItem_cases project st item)
      as [[-> Hskip]|(n & report & -> & Hn & Hfresh)]; simpl.
    + intros Hrest.
      destruct (IH _ _ Hnames Hinv Hrest) as (Hv & Hmono & Hcov & new & Hnew & Hsub).
      split; [done|]. split; [done|]. split.
      * intros n [[Hitem Hn]|Hin]%truthyNames_cons; [|by apply Hcov].
        destruct (Hskip n Hitem) as [?|?]; [done|by apply Hmono].
      * exists new. split; [done|]. etrans; [done|apply truthyNames_tail].
    + rewrite (checkItem_fresh _ _ _ _ Hn Hfresh).
      destruct (analyzeSymbol project n false) as [err|r] eqn:Hr; simpl; [done|].
      pose proof (ScanVerdicts_step project st n report r Hname Hfresh Hr Hinv) as Hv1.
      pose proof (truthyNames_fresh n report items Hn) as Ht.
      pose proof (Hname n r) as Hnr. simpl in Hnr.
      assert (Hend : forall st1 extra,
                checkedSymbols st1 = checkedSymbols st ∪ {[n]} ->
                map deadName (unreferencedSymbols st1)
                = map deadName (unreferencedSymbols st) ++ extra ->
                extra `sublist_of` [n] ->
                ScanVerdicts project st1 ->
                forEach (checkItem project) st1 items = ok st' ->
                ScanVerdicts project st'
                /\ (forall m, m ∈ checkedSymbols st -> m ∈ checkedSymbols st')
                /\ (forall m, m ∈ truthyNames ((Some n, report) :: items) ->
                              m ∈ checkedSymbols st')
                /\ exists new,
                     map deadName (unreferencedSymbols st')
                     = map deadName (unreferencedSymbols st) ++ new
                     /\ new `sublist_of` truthyNames ((Some n, report) :: items)).
      { intros st1 extra Hc Hu Hextra Hv1' Hrest.
        destruct (IH _ _ Hnames Hv1' Hrest) as (Hv & Hmono & Hcov & new & Hnew & Hsub).
        rewrite Hc in Hmono.
        split; [done|]. split; [intros m Hm; apply Hmono; set_solver|]. split.
        - intros m Hm. rewrite Ht in Hm. apply elem_of_cons in Hm as [->|Hm];
            [apply Hmono; set_solver|by apply Hcov].
        - exists (extra ++ new). split; [by rewrite Hnew, Hu, <- app_assoc|].
          rewrite Ht. change (n :: truthyNames items) with ([n] ++ truthyNames items).
          by apply sublist_app. }
      destruct (negb (isReferenced r)); simpl; intros Hrest.
      * eapply (Hend _ [n]); [| | |exact Hv1|exact Hrest]; [done| |done].
        simpl. rewrite List.map_app. simpl. by rewrite Hnr.
      * eapply (Hend _ []); [| | |exact Hv1|exact Hrest]; [done| |].
        -- simpl. by rewrite app_nil_r.
        -- apply sublist_nil_l.
Qed.

(** X6.  After a successful scan every truthy name of the scan order was
    analysed with success under the default option, and it is the name of
    an entry exactly when that analysis found no reference; the entries'
    names follow the scan order. *)
Theorem checkFile_reports_unreferenced project file entries :
  checkFile project file = ok entries ->
  exists sourceFile,
    getSourceFileOrThrow project file = ok sourceFile
    /\ map deadName entries `sublist_of` truthyNames (scanOrder sourceFile)
    /\ (forall n, n ∈ truthyNames (scanOrder sourceFile) ->
          exists r, analyzeSymbol project n false = ok r
                    /\ (n ∈ map deadName entries <-> isReferenced r = false)).
Proof.
  rewrite checkFile_scanOrder.
  destruct (getSourceFileOrThrow project file) as [err|sf]; simpl; [done|].
  destruct (forEach (checkItem project) emptyScanState (scanOrder sf))
    as [err|st] eqn:Hscan; simpl; [done|].
  intros [= <-]. exists sf. split; [done|].
  destruct (checkItems_verdicts project (scanOrder sf) emptyScanState st)
    as ([_ Hverdict] & _ & Hcov & new & Hnew & Hsub);
    [apply scanOrder_names_itself| |done|].
  { split; [by intros e ?%elem_of_nil|by intros n ?%not_elem_of_empty]. }
  simpl in Hnew. rewrite Hnew. split; [done|].
  intros n Hn. rewrite <- Hnew. by apply Hverdict, Hcov.
Qed.


(** *** The shape of an entry *)

Lemma analyzeSymbol_type_kinds project name include r :
  analyzeSymbol project name include = ok r ->
  type r = KFunction \/ type r = KInterface \/ type r = KClass.
Proof.
  intros (def & Hdef & -> & _)%analyzeSymbol_ok_inv.
  destruct (findDefinition_candidate _ _ _ Hdef) as [_ Hc].
  destruct (candidate_parent _ Hc) as (_ & parent & above & Ha & Hp).
  rewrite (symbolTypeOf_parent def parent); [|unfold getParent; by rewrite Ha|done].
  destruct (kind parent); auto.
Qed.

Lemma firstItemNamed_elem name items item :
  firstItemNamed name items = Some item -> item ∈ items /\ fst item = Some name.
Proof.
  unfold firstItemNamed. intros [Hin Hname]%List.find_some.
  split; [by apply list_elem_of_In|by apply bool_decide_eq_true in Hname].
Qed.

(** X7.  An entry of a successful scan has a non-empty name and is never
    of kind [variable].  Either its name is a top-level declaration of
    the file: its context is ["global scope"] and its kind is [interface]
    or [class] for such a declaration and the analysed kind otherwise; or
    its name is no top-level declaration but a method or property of a
    class of the file: its kind is [method] or [property] and its context
    is ["class "] followed by the class name, [undefined] for an
    anonymous class. *)
Theorem checkFile_entry_shape project file entries :
  checkFile project file = ok entries ->
  exists sourceFile,
    getSourceFileOrThrow project file = ok sourceFile
    /\ forall e, e ∈ entries ->
         deadName e <> ""
         /\ deadType e <> KVariable
         /\ ((exists k r,
                (k, Some (deadName e)) ∈ declarations sourceFile
                /\ analyzeSymbol project (deadName e) false = ok r
                /\ deadContext e = "global scope"
                /\ deadType e
                   = (if bool_decide (k = InterfaceDeclaration) then KInterface
                      else if bool_decide (k = ClassDeclaration) then KClass
                      else type r))
             \/ (exists c,
                   c ∈ getClasses sourceFile
                   /\ (forall k, (k, Some (deadName e)) ∉ declarations sourceFile)
                   /\ deadContext e = "class " +:+ JsString.render (className c)
                   /\ ((deadName e ∈ getMethods c /\ deadType e = KMethod)
                       \/ (deadName e ∈ getProperties c /\ deadType e = KProperty)))).
Proof.
  rewrite checkFile_scanOrder.
  destruct (getSourceFileOrThrow project file) as [err|sf]; simpl; [done|].
  destruct (forEach (checkItem project) emptyScanState (scanOrder sf))
    as [err|st] eqn:Hscan; simpl; [done|].
  intros [= <-]. exists sf. split; [done|].
  assert (Hinv : ScanInv project ([] ++ scanOrder sf) st).
  { eapply checkItems_inv; [apply scanOrder_names_itself| |done].
    split; [|split; [constructor|by intros e ?%elem_of_nil]].
    intros n. split; [by intros ?%not_elem_of_empty|].
    by intros [_ (it & ?%elem_of_nil & _)]. }
  destruct Hinv as (Hchecked & _ & Hentries).
  intros e He. destruct (Hentries e He) as (Hin & item & r & Hfirst & Hr & _ & Heq).
  split; [by apply Hchecked in Hin as [? _]|].
  simpl in Hfirst. unfold scanOrder, firstItemNamed in Hfirst.
  rewrite find_app_first in Hfirst.
  destruct (List.find _ (map _ (declarations sf))) as [item'|] eqn:Hdecl.
  - injection Hfirst as ->.
    apply List.find_some in Hdecl as [Hitem Hname].
    apply bool_decide_eq_true in Hname.
    apply list_elem_of_In, list_elem_of_fmap in Hitem as ([k name] & -> & Hd).
    simpl in *. subst name.
    assert (Htype : deadType e
                    = (if bool_decide (k = InterfaceDeclaration) then KInterface
                       else if bool_decide (k = ClassDeclaration) then KClass
                       else type r)) by (by rewrite Heq).
    split.
    + rewrite Htype. repeat case_bool_decide; try done.
      by destruct (analyzeSymbol_type_kinds _ _ _ _ Hr) as [->|[->| ->]].
    + left. exists k, r. repeat split; try done. by rewrite Heq.
  - apply List.find_some in Hfirst as [Hitem Hname].
    apply bool_decide_eq_true in Hname.
    apply list_elem_of_In, elem_of_concat in Hitem as (items & Hitem & Hitems).
    apply list_elem_of_fmap in Hitems as (c & -> & Hc).
    assert (Hnodecl : forall k, (k, Some (deadName e)) ∉ declarations sf).
    { intros k Hk.
      assert (Hin' : (Some (deadName e), reportDeclaration k)
                     ∈ map (fun d => (snd d, reportDeclaration (fst d)))
                           (declarations sf))
        by (apply list_elem_of_fmap; by exists (k, Some (deadName e))).
      pose proof (proj1 (find_none_iff _ _) Hdecl _ Hin') as Hno. simpl in Hno.
      by rewrite bool_decide_eq_true_2 in Hno. }
    unfold memberItems in Hitem.
    apply elem_of_app in Hitem as [Hitem|Hitem];
      apply list_elem_of_fmap in Hitem as (m & -> & Hm);
      simpl in *; injection Hname as ->; rewrite Heq; simpl.
    + split; [done|]. right. exists c. repeat split; try done.
      left. by rewrite Heq.
    + split; [done|]. right. exists c. repeat split; try done.
      right. by rewrite Heq.
Qed.


(** *** Context labels *)

Lemma firstByKind_None k chain :
  firstByKind k chain = None <-> forall a, a ∈ chain -> kind a <> k.
Proof.
  unfold firstByKind. rewrite find_none_iff. unfold isKind.
  split; intros H a Ha.
  - apply (proj1 (bool_decide_eq_false _)). by apply H.
  - apply bool_decide_eq_false. by apply H.
Qed.

Lemma firstByKind_Some k chain a :
  firstByKind k chain = Some a -> a ∈ chain /\ kind a = k.
Proof.
  unfold firstByKind, isKind. intros [Hin Hk]%List.find_some.
  split; [by apply list_elem_of_In|by apply bool_decide_eq_true in Hk].
Qed.

Lemma firstByKind_app k inner outer :
  (forall a, a ∈ inner -> kind a <> k) ->
  firstByKind k (inner ++ outer) = firstByKind k outer.
Proof.
  intros Hno. apply firstByKind_None in Hno. unfold firstByKind in *.
  by rewrite find_app_first, Hno.
Qed.

(** X8.  The label is ["global scope"] exactly when no class, interface,
    function or method declaration encloses the identifier.  When the
    nearest class is reached without crossing a method declaration, the
    label names that class and, after a dot, the nearest method
    declaration that encloses the class, if there is one: the method is
    looked up without regard to the class, so a class declared inside a
    method is labelled with the enclosing method. *)
Theorem contextOf_labels (n : IdentifierNode) :
  (contextOf n = "global scope"
   <-> forall a, a ∈ ancestors n ->
                 kind a <> ClassDeclaration /\ kind a <> InterfaceDeclaration
                 /\ kind a <> FunctionDeclaration /\ kind a <> MethodDeclaration)
  /\ (forall inner c outer,
        ancestors n = inner ++ c :: outer ->
        kind c = ClassDeclaration ->
        (forall a, a ∈ inner ->
                   kind a <> ClassDeclaration /\ kind a <> MethodDeclaration) ->
        contextOf n
        = match firstByKind MethodDeclaration outer with
          | Some m => "class " +:+ JsString.render (getName c)
                      +:+ "." +:+ JsString.render (getName m)
          | None => "class " +:+ JsString.render (getName c)
          end).
Proof.
  split.
  - unfold contextOf, getFirstAncestorByKind.
    destruct (firstByKind ClassDeclaration (ancestors n)) as [c|] eqn:Hc.
    { apply firstByKind_Some in Hc as [Hin Hk].
      split; [by destruct (firstByKind MethodDeclaration _)|].
      intros Hall. by destruct (Hall c Hin) as (? & _). }
    destruct (firstByKind InterfaceDeclaration (ancestors n)) as [i|] eqn:Hi.
    { apply firstByKind_Some in Hi as [Hin Hk].
      split; [done|]. intros Hall. by destruct (Hall i Hin) as (_ & ? & _). }
    destruct (firstByKind FunctionDeclaration (ancestors n)) as [f|] eqn:Hf.
    { apply firstByKind_Some in Hf as [Hin Hk].
      split; [done|]. intros Hall. by destruct (Hall f Hin) as (_ & _ & ? & _). }
    destruct (firstByKind MethodDeclaration (ancestors n)) as [m|] eqn:Hm.
    { apply firstByKind_Some in Hm as [Hin Hk].
      split; [done|]. intros Hall. by destruct (Hall m Hin) as (_ & _ & _ & ?). }
    split; [|done]. intros _ a Ha.
    repeat split; by eapply firstByKind_None.
  - intros inner c outer Ha Hk Hinner.
    assert (Hclass : firstByKind ClassDeclaration (ancestors n) = Some c).
    { rewrite Ha, firstByKind_app by (intros a Hin; by destruct (Hinner a Hin)).
      unfold firstByKind, isKind. simpl. by rewrite bool_decide_eq_true_2. }
    assert (Hmethod : firstByKind MethodDeclaration (ancestors n)
                      = firstByKind MethodDeclaration outer).
    { rewrite Ha, firstByKind_app by (intros a Hin; by destruct (Hinner a Hin)).
      unfold firstByKind, isKind. simpl. rewrite Hk. by rewrite bool_decide_eq_false_2. }
    unfold contextOf, getFirstAncestorByKind. rewrite Hclass, Hmethod.
    by destruct (firstByKind MethodDeclaration outer) as [m|].
Qed.


(** *** Imports that write the extension out *)

Lemma append_nonempty_neq (s t : string) : t <> "" -> s +:+ t <> s.
Proof.
  intros Ht. induction s as [|c s IH]; simpl; [done|].
  intros [= Heq]. by apply IH.
Qed.

(** X9.  A specifier import whose module specifier resolves to the
    definition's file path itself (the extension written out) never
    produces a reference, for any path module in which joining
    [index.ts] or [index.tsx] to a path changes it: the candidates only
    add to the resolved path. *)
Theorem import_with_extension_discarded project name include def o parent above
    importDecl :
  ancestors (node o) = parent :: above ->
  kind parent = ImportSpecifier ->
  firstByKind ImportDeclaration above = Some importDecl ->
  resolve (dirname (sourcePath o)) (getModuleSpecifierValue importDecl)
  = sourcePath def ->
  join (sourcePath def) "index.ts" <> sourcePath def ->
  join (sourcePath def) "index.tsx" <> sourcePath def ->
  o ∉ referenceOccurrences project name include def.
Proof.
  intros Ha Hk Hd Hres Hts Htsx (_ & _ & Hp)%referenceOccurrences_spec.
  unfold producesReference in Hp.
  apply andb_prop in Hp as [_ Hforeign]. apply negb_true_iff in Hforeign.
  apply (isForeignImport_specifier def o parent above importDecl Ha Hk Hd)
    in Hforeign as [_ Hin].
  unfold possiblePaths in Hin. rewrite Hres in Hin.
  repeat (apply elem_of_cons in Hin as [Heq|Hin]); [..|by apply elem_of_nil in Hin].
  - symmetry in Heq. by apply append_nonempty_neq in Heq.
  - symmetry in Heq. by apply append_nonempty_neq in Heq.
  - by apply Hts.
  - by apply Htsx.
Qed.


(** *** Which declaration is the definition *)

Lemma find_Some_split {A} (f : A -> bool) (l : list A) x :
  List.find f l = Some x ->
  exists before after,
    l = before ++ x :: after /\ f x = true
    /\ forall y, y ∈ before -> f y = false.
Proof.
  induction l as [|y l IH]; simpl; [done|].
  destruct (f y) eqn:Hy.
  - intros [= ->]. exists [], l. split; [done|]. split; [done|].
    by intros ? ?%elem_of_nil.
  - intros (before & after & -> & Hx & Hb)%IH.
    exists (y :: before), after. split; [done|]. split; [done|].
    intros z [->|?]%elem_of_cons; [done|by apply Hb].
Qed.

(** X10.  The definition of a returned result is the first occurrence of
    the name, in file-then-occurrence order, that lies outside ambient
    files and has an accepted parent: every occurrence before it is in an
    ambient file or has no accepted parent, whatever follows it. *)
Theorem definition_is_first_candidate project name include r :
  analyzeSymbol project name include = ok r ->
  exists before def after,
    occurrences project name = before ++ def :: after
    /\ isDeclarationFile (sourcePath def) = false
    /\ acceptsAsDefinition def = true
    /\ (forall o, o ∈ before ->
                  isDeclarationFile (sourcePath o) = true
                  \/ acceptsAsDefinition o = false)
    /\ definition r = definitionSite def
    /\ type r = symbolTypeOf def.
Proof.
  intros (def & Hdef & Htype & Hsite & _)%analyzeSymbol_ok_inv.
  rewrite findDefinition_first in Hdef.
  apply find_Some_split in Hdef as (before & after & Hocc & Hc & Hb).
  exists before, def, after. unfold isDefinitionCandidate in *.
  apply andb_prop in Hc as [Hamb Hacc]. apply negb_true_iff in Hamb.
  repeat split; try done.
  intros o Ho. specialize (Hb o Ho).
  destruct (isDeclarationFile (sourcePath o)); [by left|by right].
Qed.

End Coverage.


(** ** Worked examples on the sample projects *)

Import Samples.

#[local] Existing Instance Posix.api.
#[local] Existing Instance TsMorph.api.

Ltac evaluate := vm_compute; reflexivity.
Ltac member := vm_compute; repeat constructor.

(** Enumerates the members of a computed list. *)
Ltac each H tac :=
  vm_compute in H;
  repeat (apply elem_of_cons in H as [->|H]; [tac|]);
  try (by apply elem_of_nil in H).

(** Scenario A of the specification, on a class: [Mailer] is referenced
    from the [new] expression inside [getUser]. *)
Example scenario_A :
  analyzeSymbol sampleProject "Mailer" false
  = ok {| symbol := "Mailer";
          type := KClass;
          definition := {| filePath := "samples/mailer.ts"; siteLine := 1;
                           siteColumn := 14; context := "global scope" |};
          references :=
            [ {| filePath := "samples/user.ts"; siteLine := 6;
                 siteColumn := 9; context := "class UserService.getUser" |} ];
          isReferenced := true |}.
Proof. evaluate. Qed.

(** The call of [send], a method written without modifiers, binds to a
    declaration that begins where its name does. *)
Example method_call_counted :
  analyzeSymbol sampleProject "send" false
  = ok {| symbol := "send";
          type := KFunction;
          definition := {| filePath := "samples/mailer.ts"; siteLine := 2;
                           siteColumn := 3; context := "global scope" |};
          references :=
            [ {| filePath := "samples/user.ts"; siteLine := 6;
                 siteColumn := 18; context := "class UserService.getUser" |} ];
          isReferenced := true |}.
Proof. evaluate. Qed.

(** The import of [IUser] and its use as a parameter type bind to the
    interface declaration, which begins at [export], not at the name:
    neither is counted. *)
Example type_uses_not_counted :
  analyzeSymbol sampleProject "IUser" false
  = ok {| symbol := "IUser";
          type := KInterface;
          definition := {| filePath := "samples/types.ts"; siteLine := 1;
                           siteColumn := 18; context := "global scope" |};
          references := [];
          isReferenced := false |}.
Proof. evaluate. Qed.

(** Scenario B: the method nobody calls is reported by the scan. *)
Example scenario_B :
  checkFile sampleProject "/work/samples/notification.ts"
  = ok [ {| deadType := KClass; deadName := "NotificationService";
            deadContext := "global scope" |};
         {| deadType := KMethod; deadName := "notify";
            deadContext := "class NotificationService" |} ].
Proof. evaluate. Qed.

(** Scenario C: a name that exists nowhere. *)
Example scenario_C :
  analyzeSymbol sampleProject "nothing" false = throw (SymbolNotFound "nothing").
Proof. evaluate. Qed.

(** The lookup of the sample front end: a path relative to the working
    directory and a bare file name find the file, a path of no file does
    not. *)
Example checkFile_lookup :
  getSourceFileOrThrow sampleProject "samples/types.ts" = ok typesFile
  /\ getSourceFileOrThrow sampleProject "types.ts" = ok typesFile
  /\ getSourceFileOrThrow sampleProject "/work/samples/../samples/types.ts"
     = ok typesFile
  /\ checkFile sampleProject "/work/samples/missing.ts"
     = throw (FileNotInWorkspace "/work/samples/missing.ts").
Proof. repeat split; evaluate. Qed.

(** *** C1 *)

(** C1, as stated, fails: the first accepted occurrence of [notify] has a
    method declaration as parent, and the reported kind is [function]. *)
Lemma method_definition_reported_as_function :
  exists def parent r,
    List.find isDefinitionCandidate (occurrences sampleProject "notify") = Some def
    /\ getParent (node def) = Some parent
    /\ kind parent = MethodDeclaration
    /\ analyzeSymbol sampleProject "notify" false = ok r
    /\ type r = KFunction
    /\ type r <> KMethod.
Proof.
  do 3 eexists. split; [evaluate|]. split; [evaluate|]. split; [evaluate|].
  split; [evaluate|]. split; [evaluate|]. vm_compute. discriminate.
Qed.

(** The kind rule at [notify], a method of the sample tree. *)
Lemma analyzeSymbol_kind_of_parent_witness :
  exists def,
    List.find isDefinitionCandidate (occurrences sampleProject "notify") = Some def
    /\ exists parent r,
         getParent (node def) = Some parent
         /\ kind parent ∈ [ClassDeclaration; InterfaceDeclaration; FunctionDeclaration;
                           MethodDeclaration; PropertyDeclaration]
         /\ analyzeSymbol sampleProject "notify" true = ok r
         /\ type r = match kind parent with
                     | ClassDeclaration => KClass
                     | InterfaceDeclaration => KInterface
                     | _ => KFunction
                     end.
Proof.
  eexists. split; [evaluate|].
  apply (analyzeSymbol_kind_of_parent sampleProject "notify" true). evaluate.
Defined.

(** *** C2 *)

(** C2: on a file that declares only the variable [unused], which nothing
    references, the scan does not return a variable entry: the analysis of
    [unused] finds no accepted declaration (its parent is a variable
    declaration) and the scan throws [SymbolNotFound]. *)
Theorem checkFile_variable_only_throws :
  getSourceFileOrThrow variableProject "/work/src/config.ts" = ok configFile
  /\ declarations configFile = [(VariableDeclaration, Some "unused")]
  /\ findDefinition variableProject "unused" = None
  /\ checkFile variableProject "/work/src/config.ts"
     = throw (SymbolNotFound "unused")
  /\ checkFile variableProject "/work/src/config.ts"
     <> ok [ {| deadType := KVariable; deadName := "unused";
                deadContext := "global scope" |} ].
Proof.
  split; [evaluate|]. split; [evaluate|]. split; [evaluate|].
  assert (Hthrow : checkFile variableProject "/work/src/config.ts"
                   = throw (SymbolNotFound "unused")).
  { apply (checkFile_first_name_unlocated variableProject "/work/src/config.ts"
             configFile "unused" (reportDeclaration VariableDeclaration) []);
      [evaluate|evaluate|discriminate|evaluate]. }
  split; [done|]. rewrite Hthrow. discriminate.
Qed.

(** *** C3 *)

(** A name that is nowhere, and a method nobody references. *)
Lemma analyzeSymbol_not_found_or_result_witness :
  analyzeSymbol sampleProject "nothing" true = throw (SymbolNotFound "nothing")
  /\ exists def r,
       findDefinition sampleProject "notify" = Some def
       /\ analyzeSymbol sampleProject "notify" true = ok r
       /\ (isReferenced r = false <-> references r = [])
       /\ (forall o, o ∈ referenceOccurrences sampleProject "notify" true def ->
                     nodeId o <> nodeId def)
       /\ (forall e, e ∈ references r ->
             exists o, o ∈ referenceOccurrences sampleProject "notify" true def
                       /\ siteOf o = e /\ nodeId o <> nodeId def)
       /\ ((forall o, o ∈ occurrences sampleProject "notify" ->
                      siteOf o = siteOf def -> o = def) ->
           siteOf def ∉ references r).
Proof.
  split.
  - apply (proj1 (analyzeSymbol_not_found_or_result sampleProject "nothing" true)).
    intros o Ho. vm_compute in Ho. inversion Ho.
  - apply (proj2 (proj2 (analyzeSymbol_not_found_or_result sampleProject "notify" true))).
    eexists. split; [member|evaluate].
Defined.

(** Zero references is a result, not a failure: with the declaring file
    included, the only occurrence of [notify] that binds to the
    definition is the definition node, which is passed over. *)
Example zero_references_is_success :
  isReferenceToDefinition notifyDefinition notifyDefinition = true
  /\ isDefinitionItself notifyDefinition notifyDefinition = true
  /\ analyzeSymbol sampleProject "notify" true
     = ok {| symbol := "notify";
             type := KFunction;
             definition := {| filePath := "samples/notification.ts";
                              siteLine := 2; siteColumn := 3;
                              context := "global scope" |};
             references := [];
             isReferenced := false |}.
Proof. repeat split; evaluate. Qed.

(** *** C4 *)

(** C4: the class [Greeter] of [greeter.ts] is merged with the interface
    [Greeter] of [more.ts].  The definition of [greet] is the method of
    the class; the signature [greet] of the interface stands under a
    method signature, is not the definition node, and is returned as a
    reference, so that the scan of [greeter.ts] does not report the
    method, which nothing calls. *)
Theorem method_signature_counted_as_reference :
  findDefinition mergedProject "greet" = Some greetDefinition
  /\ greetSignature ∈ occurrences mergedProject "greet"
  /\ fmap kind (getParent (node greetSignature)) = Some MethodSignature
  /\ nodeId greetSignature <> nodeId greetDefinition
  /\ isDefinitionItself greetDefinition greetSignature = false
  /\ siteOf greetSignature
     = {| filePath := "src/more.ts"; siteLine := 2; siteColumn := 3;
          context := "interface Greeter" |}
  /\ analyzeSymbol mergedProject "greet" false
     = ok {| symbol := "greet";
             type := KFunction;
             definition := {| filePath := "src/greeter.ts"; siteLine := 2;
                              siteColumn := 3; context := "global scope" |};
             references := [siteOf greetSignature];
             isReferenced := true |}
  /\ checkFile mergedProject "/work/src/greeter.ts"
     = ok [ {| deadType := KClass; deadName := "Greeter";
               deadContext := "global scope" |} ].
Proof.
  split; [evaluate|]. split; [member|]. split; [evaluate|].
  split; [vm_compute; discriminate|]. repeat split; evaluate.
Qed.

(** The same, by the rule for signatures. *)
Example signature_rule_at_greet :
  greetSignature ∈ referenceOccurrences mergedProject "greet" false greetDefinition.
Proof.
  apply (proj2 (proj2 (signature_occurrence_passes mergedProject "greet" false
                         greetDefinition greetSignature
                         (above MethodSignature (Some "greet"))
                         [above InterfaceDeclaration (Some "Greeter")]
                         ltac:(evaluate) ltac:(member) eq_refl
                         (or_introl eq_refl)))).
  repeat split; evaluate.
Qed.

(** *** C5 *)

(** C5: [helper] is declared in [utils.ts] and called there, inside
    [run], and nowhere else.  The call binds to the function declaration,
    which begins at the [function] keyword (position 0), while the
    definition's identifier begins after it (position 8): the position
    test fails, the call is no [new] expression or member access, and
    the analysis that includes internal references returns no reference,
    as the default analysis does. *)
Theorem internal_call_not_returned :
  findDefinition helperProject "helper" = Some helperDefinition
  /\ helperUse ∈ occurrences helperProject "helper"
  /\ sourcePath helperUse = sourcePath helperDefinition
  /\ fmap kind (getParent (node helperUse)) = Some CallExpression
  /\ getDefinitions (node helperUse)
     = [declaredAt "/work/src/utils.ts" 0 FunctionDeclaration]
  /\ getPos (node helperDefinition) = 8
  /\ isReferenceToDefinition helperDefinition helperUse = false
  /\ analyzeSymbol helperProject "helper" false
     = ok {| symbol := "helper";
             type := KFunction;
             definition := {| filePath := "src/utils.ts"; siteLine := 1;
                              siteColumn := 10; context := "global scope" |};
             references := [];
             isReferenced := false |}
  /\ analyzeSymbol helperProject "helper" true
     = ok {| symbol := "helper";
             type := KFunction;
             definition := {| filePath := "src/utils.ts"; siteLine := 1;
                              siteColumn := 10; context := "global scope" |};
             references := [];
             isReferenced := false |}.
Proof. split; [evaluate|]. split; [member|]. repeat split; evaluate. Qed.

(** Where the declaration begins with its name, the same-file use is
    returned: [step] is called through [this] inside [run]. *)
Example internal_method_call_included :
  analyzeSymbol jobProject "step" false
  = ok {| symbol := "step";
          type := KFunction;
          definition := {| filePath := "src/job.ts"; siteLine := 2;
                           siteColumn := 3; context := "global scope" |};
          references := [];
          isReferenced := false |}
  /\ analyzeSymbol jobProject "step" true
     = ok {| symbol := "step";
             type := KFunction;
             definition := {| filePath := "src/job.ts"; siteLine := 2;
                              siteColumn := 3; context := "global scope" |};
             references := [ {| filePath := "src/job.ts"; siteLine := 3;
                                siteColumn := 16; context := "class Job.run" |} ];
             isReferenced := true |}.
Proof. split; evaluate. Qed.

(** *** C6 *)

(** The default import of [app.ts] and the specifier import of [jobs.ts],
    both from the package [lib/logger], are discarded; the specifier
    import of [cli.ts], from ['./logger'], whose first candidate is the
    declaring file, is judged by the binding test alone. *)
Lemma import_occurrence_filtered_witness :
  exists r,
    analyzeSymbol importProject "Logger" false = ok r
    /\ (defaultImport ∉ referenceOccurrences importProject "Logger" false
                           loggerDefinition)
    /\ (siteOf defaultImport ∉ references r)
    /\ (packageSpecifier ∉ referenceOccurrences importProject "Logger" false
                              loggerDefinition)
    /\ (siteOf packageSpecifier ∉ references r)
    /\ (relativeSpecifier ∈ referenceOccurrences importProject "Logger" false
                              loggerDefinition
        <-> isReferenceToDefinition loggerDefinition relativeSpecifier = true).
Proof.
  assert (Hdef : findDefinition importProject "Logger" = Some loggerDefinition)
    by evaluate.
  eexists.
  assert (Hr : analyzeSymbol importProject "Logger" false = ok ?[r]) by evaluate.
  split; [exact Hr|].
  assert (Hunshared : forall o, o ∈ occurrences importProject "Logger" ->
            forall o', o' ∈ occurrences importProject "Logger" ->
                       siteOf o' = siteOf o -> o' = o).
  { intros o Ho o' Ho' Hsite.
    each Ho ltac:(idtac); each Ho' ltac:(idtac);
      first [reflexivity | vm_compute in Hsite; discriminate Hsite]. }
  assert (Hfront : forall d, Some d ∈ getDefinitions (node defaultImport) ->
            (declFilePath d = sourcePath loggerDefinition ->
             declPos d = getPos (node loggerDefinition) ->
             declKind d = MethodDeclaration \/ declKind d = PropertyDeclaration)
            /\ declKind d <> MethodDeclaration /\ declKind d <> PropertyDeclaration).
  { intros d Hd. apply list_elem_of_singleton in Hd. injection Hd as ->.
    split; [intros Hfile; discriminate Hfile|split; discriminate]. }
  destruct (import_occurrence_filtered importProject "Logger" false
              loggerDefinition _ defaultImport
              (above ImportClause None) [importFrom "lib/logger"]
              (importFrom "lib/logger") Hdef Hr
              ltac:(member) eq_refl eq_refl
              ltac:(discriminate) ltac:(discriminate) (fun _ => Hfront))
    as (_ & _ & _ & Hdefault).
  destruct (import_occurrence_filtered importProject "Logger" false
              loggerDefinition _ packageSpecifier
              (above ImportSpecifier None)
              [above NamedImports None; above ImportClause None;
               importFrom "lib/logger"]
              (importFrom "lib/logger") Hdef Hr
              ltac:(member) eq_refl eq_refl
              ltac:(discriminate) ltac:(discriminate) ltac:(by intros Hk))
    as (_ & _ & _ & Hpackage).
  destruct (import_occurrence_filtered importProject "Logger" false
              loggerDefinition _ relativeSpecifier
              (above ImportSpecifier None)
              [above NamedImports None; above ImportClause None;
               importFrom "./logger"]
              (importFrom "./logger") Hdef Hr
              ltac:(member) eq_refl eq_refl
              ltac:(discriminate) ltac:(discriminate) ltac:(by intros Hk))
    as (Hrelative & _).
  destruct (Hdefault eq_refl) as [Hout Hsite].
  destruct (Hpackage eq_refl) as [Hout' Hsite'].
  split; [exact Hout|]. split; [apply Hsite, Hunshared; member|].
  split; [exact Hout'|]. split; [apply Hsite', Hunshared; member|].
  rewrite Hrelative. split; [by intros (_ & _ & ? & _)|].
  intros Hres. split; [reflexivity|]. split; [evaluate|]. split; [exact Hres|].
  split; [evaluate|]. split; [evaluate|]. member.
Defined.

(** The candidates of [import ... from './logger'] written in
    [/work/src/cli.ts]. *)
Example possiblePaths_sample :
  possiblePaths "/work/src/cli.ts" "./logger"
  = [ "/work/src/logger.ts"; "/work/src/logger.tsx";
      "/work/src/logger/index.ts"; "/work/src/logger/index.tsx" ].
Proof. evaluate. Qed.

(** None of the four imports of [Logger] is returned: the two from the
    package bind to the imports themselves, the two relative ones to the
    class declaration, which begins at [export]. *)
Example import_sample_result :
  analyzeSymbol importProject "Logger" false
  = ok {| symbol := "Logger";
          type := KClass;
          definition := {| filePath := "src/logger.ts"; siteLine := 1;
                           siteColumn := 14; context := "global scope" |};
          references := [];
          isReferenced := false |}.
Proof. evaluate. Qed.

(** *** C7 *)

(** [size]: the ambient file comes first, declares a property [size] and
    names the [size] of [Widget]. *)
Lemma ambient_files_never_contribute_witness :
  exists r def,
    analyzeSymbol ambientProject "size" true = ok r
    /\ findDefinition ambientProject "size" = Some def
    /\ def ∈ occurrences ambientProject "size"
    /\ definition r = definitionSite def
    /\ isDeclarationFile (sourcePath def) = false
    /\ (forall o, o ∈ occurrences ambientProject "size" ->
                  isDeclarationFile (sourcePath o) = true ->
                  o <> def /\ o ∉ referenceOccurrences ambientProject "size" true def)
    /\ (forall e, e ∈ references r ->
          exists o, o ∈ referenceOccurrences ambientProject "size" true def
                    /\ siteOf o = e
                    /\ isDeclarationFile (sourcePath o) = false)
    /\ (forall o, o ∈ occurrences ambientProject "size" ->
                  isDeclarationFile (sourcePath o) = true ->
                  (forall o', o' ∈ occurrences ambientProject "size" ->
                              siteOf o' = siteOf o -> sourcePath o' = sourcePath o) ->
                  siteOf o ∉ references r).
Proof.
  eexists.
  assert (Hr : analyzeSymbol ambientProject "size" true = ok ?[r]) by evaluate.
  destruct (ambient_files_never_contribute ambientProject "size" true _ Hr)
    as (def & H).
  exists def. split; [exact Hr|exact H].
Defined.

(** The property of the ambient class is passed over as a definition, the
    use in the ambient file binds to the definition and is dropped, and
    the only reference is the one in [main.ts]. *)
Example ambient_sample_result :
  isDefinitionCandidate (occurrenceAt 0 2 "/work/src/ambient.d.ts" panelSize) = false
  /\ acceptsAsDefinition (occurrenceAt 0 2 "/work/src/ambient.d.ts" panelSize) = true
  /\ isReferenceToDefinition sizeDefinition ambientSize = true
  /\ producesReference sizeDefinition ambientSize = false
  /\ analyzeSymbol ambientProject "size" true
     = ok {| symbol := "size";
             type := KFunction;
             definition := {| filePath := "src/widget.ts"; siteLine := 2;
                              siteColumn := 3; context := "global scope" |};
             references := [siteOf mainSize];
             isReferenced := true |}
  /\ siteOf mainSize
     = {| filePath := "src/main.ts"; siteLine := 3; siteColumn := 23;
          context := "global scope" |}.
Proof. repeat split; evaluate. Qed.

(** *** C8 *)


(** Three reference-producing occurrences, two of them with one key: two
    entries, in the order of first insertion. *)
Example duplicate_sample_result :
  map siteOf (referenceOccurrences duplicateProject "Widget" false widgetDefinition)
  = [ {| filePath := "src/generated.ts"; siteLine := 1; siteColumn := 5;
         context := "global scope" |};
      {| filePath := "src/generated.ts"; siteLine := 1; siteColumn := 5;
         context := "global scope" |};
      {| filePath := "src/generated.ts"; siteLine := 2; siteColumn := 5;
         context := "global scope" |} ]
  /\ (let* r := analyzeSymbol duplicateProject "Widget" false in ok (references r))
     = ok [ {| filePath := "src/generated.ts"; siteLine := 1; siteColumn := 5;
               context := "global scope" |};
            {| filePath := "src/generated.ts"; siteLine := 2; siteColumn := 5;
               context := "global scope" |} ].
Proof. split; evaluate. Qed.

Example refKey_sample :
  refKey {| filePath := "src/generated.ts"; siteLine := 12; siteColumn := 5;
            context := "class A.run" |}
  = "src/generated.ts:12:5:class A.run".
Proof. evaluate. Qed.

(** *** C9 *)

(** The scan of a file in which [run] is a function, a method and a
    property. *)
Lemma checkFile_each_name_once_witness :
  exists entries sourceFile,
    checkFile runnerProject "/work/src/runner.ts" = ok entries
    /\ getSourceFileOrThrow runnerProject "/work/src/runner.ts" = ok sourceFile
    /\ NoDup (map deadName entries)
    /\ (forall e, e ∈ entries ->
          exists item r,
            firstItemNamed (deadName e) (scanOrder sourceFile) = Some item
            /\ analyzeSymbol runnerProject (deadName e) false = ok r
            /\ isReferenced r = false
            /\ e = snd item (deadName e) r).
Proof.
  eexists.
  assert (Hc : checkFile runnerProject "/work/src/runner.ts" = ok ?[entries])
    by evaluate.
  destruct (checkFile_each_name_once runnerProject "/work/src/runner.ts" _ Hc)
    as (sf & H).
  exists sf. split; [exact Hc|exact H].
Defined.

(** [run] is a function, a method and a property of the file; it is
    reported once, as the function. *)
Example runner_sample_result :
  map fst (scanOrder runnerFile)
  = [Some "run"; Some "Runner"; Some "Queue"; Some "run"; Some "run"]
  /\ checkFile runnerProject "/work/src/runner.ts"
     = ok [ {| deadType := KFunction; deadName := "run";
               deadContext := "global scope" |};
            {| deadType := KClass; deadName := "Runner";
               deadContext := "global scope" |};
            {| deadType := KClass; deadName := "Queue";
               deadContext := "global scope" |} ].
Proof. split; evaluate. Qed.

(** *** C10 *)

(** [notify] is a method of a class: its own label would name the class,
    the result's definition says [global scope]. *)
Lemma definition_context_is_global_scope_witness :
  exists r,
    analyzeSymbol sampleProject "notify" false = ok r
    /\ findDefinition sampleProject "notify" = Some notifyDefinition
    /\ contextOf (node notifyDefinition) = "class NotificationService.notify"
    /\ context (definition r) = "global scope".
Proof.
  eexists.
  assert (Hr : analyzeSymbol sampleProject "notify" false = ok ?[r]) by evaluate.
  split; [exact Hr|]. split; [evaluate|]. split; [evaluate|].
  exact (definition_context_is_global_scope sampleProject "notify" false _ Hr).
Defined.

(** ** Worked examples for the further properties *)

(** *** X1 *)

(** The function [Session] of [auth.ts] is flagged as referenced by the
    instantiation of the unrelated class [Session] in [legacy.ts]. *)
Lemma structural_fallback_counts_witness :
  sessionInstantiation ∈ referenceOccurrences fallbackProject "Session" false
                           sessionDefinition
  /\ exists r, analyzeSymbol fallbackProject "Session" false = ok r
               /\ isReferenced r = true
               /\ refKey (siteOf sessionInstantiation) ∈ map refKey (references r).
Proof.
  apply (structural_fallback_counts fallbackProject "Session" false
           sessionDefinition sessionInstantiation (above NewExpression None)
           [above OtherKind None]
           {| declFilePath := "/work/src/legacy.ts"; declPos := 0;
              declKind := ClassDeclaration |}).
  - evaluate.
  - member.
  - evaluate.
  - evaluate.
  - evaluate.
  - member.
  - left. split; evaluate.
Defined.

Example fallback_sample_result :
  analyzeSymbol fallbackProject "Session" false
  = ok {| symbol := "Session";
          type := KFunction;
          definition := {| filePath := "src/auth.ts"; siteLine := 1;
                           siteColumn := 17; context := "global scope" |};
          references := [ {| filePath := "src/legacy.ts"; siteLine := 2;
                             siteColumn := 5; context := "global scope" |} ];
          isReferenced := true |}.
Proof. evaluate. Qed.

(** *** X2 *)

(** [step], called only inside its own class. *)
Lemma option_only_adds_references_witness :
  exists r def r',
    analyzeSymbol jobProject "step" false = ok r
    /\ findDefinition jobProject "step" = Some def
    /\ analyzeSymbol jobProject "step" true = ok r'
    /\ symbol r' = symbol r /\ type r' = type r /\ definition r' = definition r
    /\ referenceOccurrences jobProject "step" false def
         `sublist_of` referenceOccurrences jobProject "step" true def
    /\ (forall k, k ∈ map refKey (references r) -> k ∈ map refKey (references r'))
    /\ (isReferenced r = true -> isReferenced r' = true)
    /\ (forall o, o ∈ referenceOccurrences jobProject "step" true def ->
                  o ∈ referenceOccurrences jobProject "step" false def
                  \/ sourcePath o = sourcePath def).
Proof.
  eexists.
  assert (Hr : analyzeSymbol jobProject "step" false = ok ?[r]) by evaluate.
  destruct (option_only_adds_references jobProject "step" _ Hr)
    as (def & r' & H).
  exists def, r'. split; [exact Hr|exact H].
Defined.

(** *** X3 *)

(** [Mailer], referenced from [user.ts] only. *)
Lemma default_skips_declaring_file_witness :
  exists r def,
    analyzeSymbol sampleProject "Mailer" false = ok r
    /\ findDefinition sampleProject "Mailer" = Some def
    /\ (forall o, o ∈ referenceOccurrences sampleProject "Mailer" false def ->
                  sourcePath o <> sourcePath def)
    /\ (forall e, e ∈ references r ->
          exists o, o ∈ occurrences sampleProject "Mailer"
                    /\ siteOf o = e
                    /\ sourcePath o <> sourcePath def
                    /\ producesReference def o = true)
    /\ (isReferenced r = true
        <-> exists o, o ∈ occurrences sampleProject "Mailer"
                      /\ sourcePath o <> sourcePath def
                      /\ producesReference def o = true).
Proof.
  eexists.
  assert (Hr : analyzeSymbol sampleProject "Mailer" false = ok ?[r]) by evaluate.
  destruct (default_skips_declaring_file sampleProject "Mailer" _ Hr) as (def & H).
  exists def. split; [exact Hr|exact H].
Defined.

(** *** X4 *)


Example appended_sample_results :
  (let* r := analyzeSymbol [mailerFile; notificationFile; typesFile] "Mailer" false in
   ok (references r)) = ok []
  /\ (let* r := analyzeSymbol ([mailerFile; notificationFile; typesFile] ++ [userFile])
                              "Mailer" false in
      ok (length (references r))) = ok 1.
Proof. split; evaluate. Qed.

(** *** X5 *)

(** The scan of [notification.ts] succeeds, that of [config.ts] does not,
    and no file answers to [missing.ts]. *)
Lemma checkFile_outcome_witness :
  (exists entries,
     checkFile sampleProject "/work/samples/notification.ts" = ok entries)
  /\ ~ (exists entries, checkFile variableProject "/work/src/config.ts" = ok entries)
  /\ checkFile sampleProject "missing.ts" = throw (FileNotInWorkspace "missing.ts").
Proof.
  destruct (checkFile_outcome sampleProject "/work/samples/notification.ts")
    as (_ & _ & Hservice).
  destruct (checkFile_outcome variableProject "/work/src/config.ts")
    as (_ & _ & Hconfig).
  destruct (checkFile_outcome sampleProject "missing.ts") as (Hmissing & _).
  split; [|split].
  - assert (Hfile : getSourceFile sampleProject "/work/samples/notification.ts"
                    = Some notificationFile) by evaluate.
    apply (proj2 (Hservice notificationFile Hfile)).
    intros n Hn. each Hn ltac:(by vm_compute).
  - intros Hok.
    assert (Hfile : getSourceFile variableProject "/work/src/config.ts"
                    = Some configFile) by evaluate.
    apply (proj1 (Hconfig configFile Hfile) Hok "unused"); [member|evaluate].
  - apply (proj2 Hmissing). evaluate.
Defined.

(** *** X6 *)

Lemma checkFile_reports_unreferenced_witness :
  exists entries sourceFile,
    checkFile sampleProject "/work/samples/notification.ts" = ok entries
    /\ getSourceFileOrThrow sampleProject "/work/samples/notification.ts"
       = ok sourceFile
    /\ map deadName entries `sublist_of` truthyNames (scanOrder sourceFile)
    /\ (forall n, n ∈ truthyNames (scanOrder sourceFile) ->
          exists r, analyzeSymbol sampleProject n false = ok r
                    /\ (n ∈ map deadName entries <-> isReferenced r = false)).
Proof.
  eexists.
  assert (Hc : checkFile sampleProject "/work/samples/notification.ts"
               = ok ?[entries]) by evaluate.
  destruct (checkFile_reports_unreferenced sampleProject
              "/work/samples/notification.ts" _ Hc) as (sf & H).
  exists sf. split; [exact Hc|exact H].
Defined.

(** [Mailer] and [send] are referenced from [user.ts] and are not
    reported; [UserService] and its method [getUser] are referenced by
    nobody; [IUser] is reported, its uses not being counted. *)
Example scan_of_the_sample_tree :
  checkFile sampleProject "/work/samples/mailer.ts" = ok []
  /\ checkFile sampleProject "/work/samples/user.ts"
     = ok [ {| deadType := KClass; deadName := "UserService";
               deadContext := "global scope" |};
            {| deadType := KMethod; deadName := "getUser";
               deadContext := "class UserService" |} ]
  /\ checkFile sampleProject "/work/samples/types.ts"
     = ok [ {| deadType := KInterface; deadName := "IUser";
               deadContext := "global scope" |} ].
Proof. repeat split; evaluate. Qed.

(** *** X7 *)

Lemma checkFile_entry_shape_witness :
  exists entries sourceFile,
    checkFile runnerProject "/work/src/runner.ts" = ok entries
    /\ getSourceFileOrThrow runnerProject "/work/src/runner.ts" = ok sourceFile
    /\ forall e, e ∈ entries ->
         deadName e <> ""
         /\ deadType e <> KVariable
         /\ ((exists k r,
                (k, Some (deadName e)) ∈ declarations sourceFile
                /\ analyzeSymbol runnerProject (deadName e) false = ok r
                /\ deadContext e = "global scope"
                /\ deadType e
                   = (if bool_decide (k = InterfaceDeclaration) then KInterface
                      else if bool_decide (k = ClassDeclaration) then KClass
                      else type r))
             \/ (exists c,
                   c ∈ getClasses sourceFile
                   /\ (forall k, (k, Some (deadName e)) ∉ declarations sourceFile)
                   /\ deadContext e = "class " +:+ JsString.render (className c)
                   /\ ((deadName e ∈ getMethods c /\ deadType e = KMethod)
                       \/ (deadName e ∈ getProperties c /\ deadType e = KProperty)))).
Proof.
  eexists.
  assert (Hc : checkFile runnerProject "/work/src/runner.ts" = ok ?[entries])
    by evaluate.
  destruct (checkFile_entry_shape runnerProject "/work/src/runner.ts" _ Hc)
    as (sf & H).
  exists sf. split; [exact Hc|exact H].
Defined.

(** *** X8 *)

(** [limit] stands in the class [Inner], which the method [build] of
    [Outer] encloses: the label pairs [Inner] with [build]. *)
Lemma contextOf_labels_witness :
  contextOf limitUse = "class Inner.build"
  /\ contextOf limitUse <> "global scope".
Proof.
  split.
  - apply (proj2 (contextOf_labels limitUse)
             [above PropertyDeclaration (Some "size")]
             (above ClassDeclaration (Some "Inner"))
             [above OtherKind None; above MethodDeclaration (Some "build");
              above ClassDeclaration (Some "Outer")]); [evaluate|evaluate|].
    intros a ->%list_elem_of_singleton. split; discriminate.
  - intros Hglobal.
    pose proof (proj1 (proj1 (contextOf_labels limitUse)) Hglobal) as Hall.
    destruct (Hall (above ClassDeclaration (Some "Inner"))) as [Hk _]; [member|].
    by apply Hk.
Defined.

(** *** X9 *)

(** [import { Logger } from './logger.ts'] resolves to the declaring file
    and is discarded. *)
Lemma import_with_extension_discarded_witness :
  resolve (dirname "/work/src/tool.ts") "./logger.ts" = "/work/src/logger.ts"
  /\ extensionSpecifier
       ∉ referenceOccurrences importProject "Logger" false loggerDefinition.
Proof.
  split; [evaluate|].
  apply (import_with_extension_discarded importProject "Logger" false
           loggerDefinition extensionSpecifier (above ImportSpecifier None)
           [above NamedImports None; above ImportClause None;
            importFrom "./logger.ts"]
           (importFrom "./logger.ts") eq_refl eq_refl eq_refl);
    [evaluate| |]; vm_compute; discriminate.
Defined.

Example extension_candidates :
  possiblePaths "/work/src/tool.ts" "./logger.ts"
  = [ "/work/src/logger.ts.ts"; "/work/src/logger.ts.tsx";
      "/work/src/logger.ts/index.ts"; "/work/src/logger.ts/index.tsx" ].
Proof. evaluate. Qed.

(** *** X10 *)

(** The property [size] of the ambient class comes first and is passed
    over, as is the use of [size] in [main.ts]. *)
Lemma definition_is_first_candidate_witness :
  exists r before def after,
    analyzeSymbol ambientProject "size" false = ok r
    /\ occurrences ambientProject "size" = before ++ def :: after
    /\ isDeclarationFile (sourcePath def) = false
    /\ acceptsAsDefinition def = true
    /\ (forall o, o ∈ before ->
                  isDeclarationFile (sourcePath o) = true
                  \/ acceptsAsDefinition o = false)
    /\ definition r = definitionSite def
    /\ type r = symbolTypeOf def.
Proof.
  eexists.
  assert (Hr : analyzeSymbol ambientProject "size" false = ok ?[r]) by evaluate.
  destruct (definition_is_first_candidate ambientProject "size" false _ Hr)
    as (before & def & after & H).
  exists before, def, after. split; [exact Hr|exact H].
Defined.

Example ambient_sample_order :
  map sourcePath (occurrences ambientProject "size")
  = [ "/work/src/ambient.d.ts"; "/work/src/ambient.d.ts";
      "/work/src/main.ts"; "/work/src/widget.ts" ]
  /\ findDefinition ambientProject "size" = Some sizeDefinition.
Proof. split; evaluate. Qed.

(** *** X11 *)

(** [Mailer], a class: every binding of the name is the class
    declaration, which begins at [export]; the import of [user.ts] is
    not returned, the [new] expression is. *)
Lemma references_by_fallback_only_witness :
  exists r,
    analyzeSymbol sampleProject "Mailer" false = ok r
    /\ (forall o, o ∈ referenceOccurrences sampleProject "Mailer" false
                       mailerDefinition
          <-> o ∈ occurrences sampleProject "Mailer"
              /\ isScanned false mailerDefinition o = true
              /\ isDeclarationFile (sourcePath o) = false
              /\ exists parent above d,
                   ancestors (node o) = parent :: above
                   /\ Some d ∈ getDefinitions (node o)
                   /\ ((kind parent = NewExpression
                        /\ declKind d = ClassDeclaration)
                       \/ (kind parent = PropertyAccessExpression
                           /\ declKind d = MethodDeclaration
                           /\ fmap kind (head above) <> Some MethodDeclaration)))
    /\ (forall e, e ∈ references r ->
          exists o parent,
            o ∈ referenceOccurrences sampleProject "Mailer" false mailerDefinition
            /\ siteOf o = e
            /\ getParent (node o) = Some parent
            /\ (kind parent = NewExpression
                \/ kind parent = PropertyAccessExpression)).
Proof.
  eexists.
  assert (Hr : analyzeSymbol sampleProject "Mailer" false = ok ?[r]) by evaluate.
  split; [exact Hr|].
  apply (references_by_fallback_only sampleProject "Mailer" false
           mailerDefinition _ ltac:(evaluate) Hr).
  intros o d Ho Hd [Hfile Hpos].
  each Ho ltac:(idtac);
    apply list_elem_of_singleton in Hd; injection Hd as ->; discriminate Hpos.
Defined.

Example mailer_occurrences :
  map (fun o => (sourcePath o,
                 fmap kind (getParent (node o)),
                 producesReference mailerDefinition o))
      (occurrences sampleProject "Mailer")
  = [ ("/work/samples/mailer.ts", Some ClassDeclaration, false);
      ("/work/samples/user.ts", Some ImportSpecifier, false);
      ("/work/samples/user.ts", Some NewExpression, true) ].
Proof. evaluate. Qed.
